(** * A shallow embedding of [tree.py]: induction and use of a binary
      decision tree over categorical (voting-record) data.

    The Python module defines the classes [Node] and [Leaf] and the function
    [learn_decision_tree], whose nested helpers ([decision_tree_learning],
    [split], [argmax], [same_classification], [plurality_value], [entropy],
    [information_gain]) close over the target column index.  Each of them is
    transcribed below under its own name.

    Conventions of the embedding.
    - A Python [str] is a [string]; an example (a csv row) is a [list string].
    - Column indices come out of [list.index], so they are natural numbers.
    - Every Python exception the transcribed code can raise is a constructor
      of [exn]; a fallible computation returns a [result].
    - Python floats are IEEE binary64 numbers, that is Rocq's primitive
      floats.  [math.log] belongs to the C library and not to the program:
      [math.log(x, 2)] is a parameter [math_log2] of the development and
      every theorem holds for each choice of it.
    - The recursion of [decision_tree_learning] is not structural; it is
      written with a fuel argument, and enough fuel is shown to exist for
      every input. *)

From Stdlib Require Import List String Ascii Bool Arith ZArith Lia.
From Stdlib Require Import Uint63 PrimFloat DecimalString Permutation.
Import ListNotations.

Set Warnings "-register-all,-inexact-float".

Local Open Scope string_scope.
Local Open Scope list_scope.

(** ** Exceptions and fallible computations *)

Inductive exn : Type :=
| IndexError
| KeyError
| ValueError
| ZeroDivisionError
| AttributeError.

Inductive result (A : Type) : Type :=
| Ok (a : A)
| Raise (e : exn).

Arguments Ok {A} a.
Arguments Raise {A} e.

Definition bind {A B : Type} (m : result A) (k : A -> result B) : result B :=
  match m with
  | Ok a => k a
  | Raise e => Raise e
  end.

Notation "x <- m ;; k" := (bind m (fun x => k))
  (at level 61, m at next level, right associativity).
Notation "' pat <- m ;; k" := (bind m (fun pat => k))
  (at level 61, pat pattern, m at next level, right associativity).

(** [LookupError] is the common base class of [IndexError] and [KeyError]. *)
Definition is_LookupError (e : exn) : bool :=
  match e with
  | IndexError | KeyError => true
  | _ => false
  end.

(** ** Python built-ins used by the module *)

Definition example : Type := list string.

(** [xs[i]] for a non-negative [i]. *)
Definition getitem {A : Type} (xs : list A) (i : nat) : result A :=
  match nth_error xs i with
  | Some x => Ok x
  | None => Raise IndexError
  end.

(** [c.lower()] on one character.  Bytes above 127 (the UTF-8 encoding of
    non-ASCII characters) are left alone; no non-ASCII character lowers to a
    string of the letters of ["republican"], so the comparison done by the
    module is not affected. *)
Definition lower_ascii (c : ascii) : ascii :=
  let n := nat_of_ascii c in
  if ((65 <=? n)%nat && (n <=? 90)%nat)%bool then ascii_of_nat (n + 32) else c.

Fixpoint lower (s : string) : string :=
  match s with
  | EmptyString => EmptyString
  | String c s' => String (lower_ascii c) (lower s')
  end.

(** [xs.index(x)]: position of the first element equal to [x]. *)
Fixpoint index_str (x : string) (xs : list string) : result nat :=
  match xs with
  | [] => Raise ValueError
  | y :: ys => if String.eqb y x then Ok 0 else i <- index_str x ys ;; Ok (S i)
  end.

(** [xs.remove(x)]: drops the first element equal to [x]. *)
Fixpoint list_remove (x : nat) (xs : list nat) : result (list nat) :=
  match xs with
  | [] => Raise ValueError
  | y :: ys => if Nat.eqb y x then Ok ys else r <- list_remove x ys ;; Ok (y :: r)
  end.

(** [str(n)] for a non-negative integer, as used by the f-string. *)
Definition str_of_nat (n : nat) : string :=
  NilZero.string_of_uint (Nat.to_uint n).

(** Evaluating a list of computations from left to right. *)
Fixpoint mapM {A B : Type} (f : A -> result B) (xs : list A) : result (list B) :=
  match xs with
  | [] => Ok []
  | x :: xs' => y <- f x ;; ys <- mapM f xs' ;; Ok (y :: ys)
  end.

(** ** The tree model: classes [Node] and [Leaf] *)

(** A [dict] with string keys, in insertion order. *)
Definition dict (V : Type) : Type := list (string * V).

Fixpoint dict_get {V : Type} (d : dict V) (k : string) : option V :=
  match d with
  | [] => None
  | (k', v) :: d' => if String.eqb k' k then Some v else dict_get d' k
  end.

(** [d[k] = v]: overwrite in place, or append a new key. *)
Fixpoint dict_set {V : Type} (d : dict V) (k : string) (v : V) : dict V :=
  match d with
  | [] => [(k, v)]
  | (k', v') :: d' =>
      if String.eqb k' k then (k', v) :: d' else (k', v') :: dict_set d' k v
  end.

Definition keys {V : Type} (d : dict V) : list string := map fst d.

Inductive tree : Type :=
| Leaf (pred_class : string)
| Node (test_attr : nat) (test_name : string) (children : dict tree).

(** [Node.__init__]; the only call site passes a non-empty [test_name], so
    the [test_name or test_attr] fallback is never taken. *)
Definition Node_init (test_attr : nat) (test_name : string) : tree :=
  Node test_attr test_name [].

(** [Node.add_child]; a [Leaf] has no such method. *)
Definition add_child (t : tree) (val : string) (subtree : tree) : result tree :=
  match t with
  | Node a n ch => Ok (Node a n (dict_set ch val subtree))
  | Leaf _ => Raise AttributeError
  end.

(** [Node.classify] and [Leaf.classify]. *)
Fixpoint classify (t : tree) (ex : example) : result string :=
  match t with
  | Leaf c => Ok c
  | Node a _ ch =>
      v <- getitem ex a ;;
      (fix lookup (d : dict tree) : result string :=
         match d with
         | [] => Raise KeyError
         | (k, sub) :: d' => if String.eqb k v then classify sub ex else lookup d'
         end) ch
  end.

(** ** Floating-point arithmetic *)

(** [float(n)] for a count [n]; exact below [2^53], which bounds the length
    of any list a Python process can hold. *)
Definition float_of_nat (n : nat) : float :=
  PrimFloat.of_uint63 (Uint63.of_Z (Z.of_nat n)).

(** [a / b] on two integers: true division, correctly rounded. *)
Definition truediv (a b : nat) : result float :=
  if Nat.eqb b 0 then Raise ZeroDivisionError
  else Ok (float_of_nat a / float_of_nat b)%float.

(** [max(xs)] keeps the first item that no later item exceeds under [>].
    The returned object is an element of the list; its position stands for
    its identity. *)
Fixpoint max_loop (xs : list float) (i : nat) (best : nat * float) : nat * float :=
  match xs with
  | [] => best
  | x :: xs' =>
      max_loop xs' (S i) (if (snd best <? x)%float then (i, x) else best)
  end.

Definition py_max (xs : list float) : result (nat * float) :=
  match xs with
  | [] => Raise ValueError
  | x :: xs' => Ok (max_loop xs' 1 (0, x))
  end.

(** [xs.index(m)]: the first position holding the object [m] itself or a
    float equal to it. *)
Fixpoint index_loop (xs : list float) (j : nat) (m : nat * float) : result nat :=
  match xs with
  | [] => Raise ValueError
  | x :: xs' =>
      if (Nat.eqb j (fst m) || (x =? snd m)%float)%bool then Ok j
      else index_loop xs' (S j) m
  end.

Definition py_index (xs : list float) (m : nat * float) : result nat :=
  index_loop xs 0 m.

(** ** The data set *)

Record DataSet : Type := mkDataSet {
  attributes : list string;
  domains : list (list string);
  examples : list example
}.

(** ** [learn_decision_tree] and its nested functions *)

Section Learner.

(** [math.log(x, 2)]. *)
Variable math_log2 : float -> float.

Section Closure.

(** Column of the attribute to predict, bound by [learn_decision_tree]. *)
Variable target : nat.

(** The counting loop that opens [same_classification],
    [plurality_value] and [entropy]. *)
Fixpoint count_loop (examples : list example) (republicans democrats : nat)
  : result (nat * nat) :=
  match examples with
  | [] => Ok (republicans, democrats)
  | exs :: rest =>
      c <- getitem exs target ;;
      if String.eqb (lower c) "republican"
      then count_loop rest (S republicans) democrats
      else count_loop rest republicans (S democrats)
  end.

(** The [for exs in examples] loop of [split]. *)
Fixpoint split_loop (attribute : nat) (todo yes_examples no_examples : list example)
  : result (list (list example)) :=
  match todo with
  | [] => Ok [yes_examples; no_examples]
  | exs :: rest =>
      x <- getitem exs attribute ;;
      if (String.eqb x "Yea" || String.eqb x "Present")%bool
      then split_loop attribute rest (yes_examples ++ [exs]) no_examples
      else split_loop attribute rest yes_examples (no_examples ++ [exs])
  end.

Definition split (attribute : nat) (examples : list example)
  : result (list (list example)) :=
  split_loop attribute examples [] [].

(** [Some leaf] for a returned [Leaf], [None] for Python's [None]. *)
Definition same_classification (examples : list example) : result (option tree) :=
  '(republicans, democrats) <- count_loop examples 0 0 ;;
  if Nat.eqb republicans 0 then Ok (Some (Leaf "Democrats"))
  else if Nat.eqb democrats 0 then Ok (Some (Leaf "Republicans"))
  else Ok None.

Definition plurality_value (examples : list example) : result tree :=
  '(republicans, democrats) <- count_loop examples 0 0 ;;
  Ok (if Nat.leb republicans democrats then Leaf "Democrats" else Leaf "Republicans").

Definition entropy (examples : list example) : result float :=
  '(republicans, democrats) <- count_loop examples 0 0 ;;
  let total := republicans + democrats in
  p_republicans <- truediv republicans total ;;
  p_democrats <- truediv democrats total ;;
  let log_dems := if negb (p_democrats =? 0)%float then math_log2 p_democrats else 0%float in
  let log_reps := if negb (p_republicans =? 0)%float then math_log2 p_republicans else 0%float in
  Ok ((- p_democrats) * log_dems - p_republicans * log_reps)%float.

Fixpoint children_loop (parent : list example) (children : list (list example))
    (e_children : float) : result float :=
  match children with
  | [] => Ok e_children
  | child :: rest =>
      if Nat.eqb (List.length child) 0 then children_loop parent rest e_children
      else
        w <- truediv (List.length child) (List.length parent) ;;
        h <- entropy child ;;
        children_loop parent rest (e_children + w * h)%float
  end.

Definition information_gain (parent : list example) (children : list (list example))
  : result float :=
  e_children <- children_loop parent children 0%float ;;
  h <- entropy parent ;;
  Ok (h - e_children)%float.

Definition argmax (attributes : list nat) (examples : list example) : result nat :=
  entropy_attr <-
    mapM (fun attribute =>
            parts <- split attribute examples ;;
            information_gain examples parts) attributes ;;
  m <- py_max entropy_attr ;;
  i <- py_index entropy_attr m ;;
  getitem attributes i.

(** The [for v in [0, 1]] loop of [decision_tree_learning], with the
    recursive call abstracted as [rec].  [None] means that [rec] ran out of
    fuel.  The labels follow the comment [# 0 == Yea and 1 == Nay]. *)
Section ForLoop.

Variable rec : list example -> list nat -> list example -> Z -> option (result tree).
Variables (A : nat) (examples : list example) (attrs : list nat) (depth : Z).

Definition loop_args (v : nat) : result (list example * list nat) :=
  parts <- split A examples ;;
  exs <- getitem parts v ;;
  temp_attrs <- list_remove A attrs ;;
  Ok (exs, temp_attrs).

Fixpoint for_loop (vs : list nat) (node : tree) : option (result tree) :=
  match vs with
  | [] => Some (Ok node)
  | v :: vs' =>
      match loop_args v with
      | Raise e => Some (Raise e)
      | Ok (exs, temp_attrs) =>
          match rec exs temp_attrs examples (depth - 1) with
          | None => None
          | Some (Raise e) => Some (Raise e)
          | Some (Ok subtree) =>
              match add_child node (if Nat.eqb v 0 then "Yea" else "Nay") subtree with
              | Raise e => Some (Raise e)
              | Ok node' => for_loop vs' node'
              end
          end
      end
  end.

End ForLoop.

(** [decision_tree_learning]; [None] when [fuel] recursive calls do not
    suffice.  The source evaluates [same_classification(examples)] a second
    time to return the leaf; the second evaluation gives the first one's
    result.  [parent_examples] defaults to the empty tuple. *)
Fixpoint decision_tree_learning (fuel : nat) (examples : list example)
    (attrs : list nat) (parent_examples : list example) (depth : Z)
    {struct fuel} : option (result tree) :=
  match fuel with
  | O => None
  | S fuel' =>
      if (depth =? 0)%Z then Some (plurality_value examples)
      else if Nat.eqb (List.length examples) 0 then Some (plurality_value parent_examples)
      else
        match same_classification examples with
        | Raise e => Some (Raise e)
        | Ok (Some leaf) => Some (Ok leaf)
        | Ok None =>
            if Nat.eqb (List.length attrs) 0 then Some (plurality_value examples)
            else
              match argmax attrs examples with
              | Raise e => Some (Raise e)
              | Ok A =>
                  for_loop (decision_tree_learning fuel')
                    A examples attrs depth [0; 1]
                    (Node_init A ("vote" ++ str_of_nat A))
              end
        end
  end.

End Closure.

Definition learn_decision_tree (fuel : nat) (dataset : DataSet)
    (target_name : string) (feature_names : list string) (depth_limit : Z)
    : option (result tree) :=
  match index_str target_name (attributes dataset) with
  | Raise e => Some (Raise e)
  | Ok target =>
      match mapM (fun name => index_str name (attributes dataset)) feature_names with
      | Raise e => Some (Raise e)
      | Ok features =>
          decision_tree_learning target fuel (examples dataset) features [] depth_limit
      end
  end.

End Learner.

(** ** A binary64 logarithm to run the learner with

    [math.log] is not part of the module.  To evaluate the learner inside
    Rocq, [log2_series] computes a base-2 logarithm on binary64 numbers from
    the exponent and the [atanh] series of the mantissa.  It only serves
    to run examples: the general theorems hold for every logarithm. *)

Fixpoint atanh_series (n : nat) (z z2 k : float) : float :=
  match n with
  | O => 0%float
  | S n' => (z / k + atanh_series n' (z * z2) z2 (k + 2))%float
  end.

Definition log2_series (x : float) : float :=
  let '(m, e) := PrimFloat.frshiftexp x in
  let z := ((m - 1) / (m + 1))%float in
  let ln_m := (2 * atanh_series 20 z (z * z) 1)%float in
  (PrimFloat.of_uint63 e - 2101 + ln_m / 0x1.62e42fefa39efp-1)%float.

(** ** Specification-side vocabulary *)

(** The row has a field in column [i]. *)
Definition has_column (i : nat) (e : example) : bool := Nat.ltb i (List.length e).

(** The binarized class of a row: does its target field read "republican",
    whatever the case of its letters? *)
Definition is_republican (target : nat) (e : example) : bool :=
  match nth_error e target with
  | Some c => String.eqb (lower c) "republican"
  | None => false
  end.

(** The row's field in column [a] is one of the two affirmative tokens. *)
Definition affirmative (a : nat) (e : example) : bool :=
  match nth_error e a with
  | Some x => (String.eqb x "Yea" || String.eqb x "Present")%bool
  | None => false
  end.

Definition republicans_in (target : nat) (es : list example) : nat :=
  List.length (filter (is_republican target) es).

Definition democrats_in (target : nat) (es : list example) : nat :=
  List.length (filter (fun e => negb (is_republican target e)) es).

(** Every internal node carries exactly the two branches ["Yea"] and
    ["Nay"], in that order, and so do all nodes below it. *)
Fixpoint two_branches (t : tree) : bool :=
  match t with
  | Leaf _ => true
  | Node _ _ [(k1, y); (k2, n)] =>
      (String.eqb k1 "Yea" && String.eqb k2 "Nay" && two_branches y && two_branches n)%bool
  | Node _ _ _ => false
  end.

(** The nodes [classify t ex] goes through: [t] itself, then the child
    stored under the value [ex] has in the tested column, and so on. *)
Inductive visits (ex : example) : tree -> tree -> Prop :=
| visits_here : forall t, visits ex t t
| visits_child : forall a name ch v sub t,
    nth_error ex a = Some v ->
    dict_get ch v = Some sub ->
    visits ex sub t ->
    visits ex (Node a name ch) t.

(** The branch an example is sent to by [split] at every node: the ["Yea"]
    child for an affirmative value, the ["Nay"] child otherwise. *)
Fixpoint route (t : tree) (ex : example) : option string :=
  match t with
  | Leaf c => Some c
  | Node a _ ch =>
      (fix lookup (d : dict tree) : option string :=
         match d with
         | [] => None
         | (k, sub) :: d' =>
             if String.eqb k (if affirmative a ex then "Yea" else "Nay")
             then route sub ex else lookup d'
         end) ch
  end.

(** The value [entropy] computes from the two counts, in binary64
    arithmetic and with [0 * log 0] taken as [0]. *)
Definition binary_entropy (math_log2 : float -> float) (republicans democrats : nat)
  : float :=
  let p_republicans := (float_of_nat republicans / float_of_nat (republicans + democrats))%float in
  let p_democrats := (float_of_nat democrats / float_of_nat (republicans + democrats))%float in
  let log_dems := if negb (p_democrats =? 0)%float then math_log2 p_democrats else 0%float in
  let log_reps := if negb (p_republicans =? 0)%float then math_log2 p_republicans else 0%float in
  ((- p_democrats) * log_dems - p_republicans * log_reps)%float.

Definition entropy_of (math_log2 : float -> float) (target : nat) (es : list example)
  : float :=
  binary_entropy math_log2 (republicans_in target es) (democrats_in target es).

Definition nonempty (es : list example) : bool := negb (Nat.eqb (List.length es) 0).

(** The sum of the entropies of the partitions, each weighted by its share
    of the parent, accumulated from left to right. *)
Definition weighted_entropies (math_log2 : float -> float) (target : nat)
    (parent : list example) (partitions : list (list example)) : float :=
  fold_left
    (fun acc child =>
       (acc + float_of_nat (List.length child) / float_of_nat (List.length parent)
              * entropy_of math_log2 target child)%float)
    partitions 0%float.

(** The computed gain of every split of a non-empty parent passes the test
    [gain >= 0], for the logarithm [math_log2]. *)
Definition gain_nonneg (math_log2 : float -> float) : Prop :=
  forall (target attribute : nat) (parent : list example)
         (parts : list (list example)) (g : float),
    parent <> [] ->
    split attribute parent = Ok parts ->
    information_gain math_log2 target parent parts = Ok g ->
    (0 <=? g)%float = true.

(** What the two iterations of the [for] loop make of the outcomes of the
    two recursive calls: the first failure, or else the node with the two
    subtrees attached. *)
Definition node_of_branches (A : nat) (name : string)
    (yes no : option (result tree)) : option (result tree) :=
  match yes with
  | None => None
  | Some (Raise e) => Some (Raise e)
  | Some (Ok y) =>
      match no with
      | None => None
      | Some (Raise e) => Some (Raise e)
      | Some (Ok n) => Some (Ok (Node A name [("Yea", y); ("Nay", n)]))
      end
  end.

(** ** Induction on trees *)

Section TreeInd.

Variable P : tree -> Prop.
Hypothesis P_Leaf : forall c, P (Leaf c).
Hypothesis P_Node : forall a name ch,
    Forall (fun kv => P (snd kv)) ch -> P (Node a name ch).

Fixpoint tree_nested_ind (t : tree) : P t :=
  match t with
  | Leaf c => P_Leaf c
  | Node a name ch =>
      P_Node a name ch
        ((fix all (d : dict tree) : Forall (fun kv => P (snd kv)) d :=
            match d with
            | [] => Forall_nil _
            | kv :: d' => Forall_cons kv (tree_nested_ind (snd kv)) (all d')
            end) ch)
  end.

End TreeInd.

(** ** Data sets used in the examples *)

(** One feature [voteX] valued Yea, Yea, Nay, Nay against the classes
    republican, democrat, republican, democrat; the class comes first. *)
Definition votex_dataset : DataSet :=
  mkDataSet ["class"; "voteX"]
    [["republican"; "democrat"]; ["Yea"; "Nay"]]
    [["republican"; "Yea"]; ["democrat"; "Yea"];
     ["republican"; "Nay"]; ["democrat"; "Nay"]].

(** The same data with the feature in the first column. *)
Definition votex_dataset_swapped : DataSet :=
  mkDataSet ["voteX"; "class"]
    [["Yea"; "Nay"]; ["republican"; "democrat"]]
    [["Yea"; "republican"]; ["Yea"; "democrat"];
     ["Nay"; "republican"]; ["Nay"; "democrat"]].

(** A republican who voted "Present" and a democrat who voted "Nay". *)
Definition present_dataset : DataSet :=
  mkDataSet ["class"; "vote1"]
    [["republican"; "democrat"]; ["Present"; "Nay"]]
    [["republican"; "Present"]; ["democrat"; "Nay"]].

(** Nobody voted "Yea": the affirmative partition of the split is empty. *)
Definition all_nay_dataset : DataSet :=
  mkDataSet ["class"; "vote1"]
    [["republican"; "democrat"]; ["Nay"]]
    [["republican"; "Nay"]; ["democrat"; "Nay"]; ["democrat"; "Nay"]].

(** Two features, so that the learned tree has two levels. *)
Definition two_votes_dataset : DataSet :=
  mkDataSet ["class"; "vote1"; "vote2"]
    [["republican"; "democrat"]; ["Yea"; "Nay"]; ["Yea"; "Nay"]]
    [["republican"; "Yea"; "Yea"]; ["democrat"; "Yea"; "Nay"];
     ["democrat"; "Nay"; "Yea"]; ["democrat"; "Nay"; "Nay"]].

(** The perfectly correlated pairing of the same values: the two "Yea"
    voters are republicans, the two "Nay" voters democrats. *)
Definition votex_correlated_dataset : DataSet :=
  mkDataSet ["class"; "voteX"]
    [["republican"; "democrat"]; ["Yea"; "Nay"]]
    [["republican"; "Yea"]; ["republican"; "Yea"];
     ["democrat"; "Nay"]; ["democrat"; "Nay"]].

Definition votex_correlated_dataset_swapped : DataSet :=
  mkDataSet ["voteX"; "class"]
    [["Yea"; "Nay"]; ["republican"; "democrat"]]
    [["Yea"; "republican"]; ["Yea"; "republican"];
     ["Nay"; "democrat"]; ["Nay"; "democrat"]].

(** The four values of the splitting scenario, one row each. *)
Definition four_values : list example :=
  [["Yea"]; ["Present"]; ["Nay"]; ["Absent"]].

(** [n] copies of a row. *)
Definition copies (n : nat) (e : example) : list example := repeat e n.

(** Thirty rows: one republican and two democrats voted "Yea", nine
    republicans and eighteen democrats voted "Nay". *)
Definition thirds_examples : list example :=
  copies 1 ["republican"; "Yea"] ++ copies 2 ["democrat"; "Yea"] ++
  copies 9 ["republican"; "Nay"] ++ copies 18 ["democrat"; "Nay"].

(** ** Measures and shapes of trees *)

(** Number of tests on the longest path from the root to a leaf. *)
Fixpoint height (t : tree) : nat :=
  match t with
  | Leaf _ => 0
  | Node _ _ ch => S (list_max (map (fun kv => height (snd kv)) ch))
  end.

(** The columns tested anywhere in the tree, root first. *)
Fixpoint tests (t : tree) : list nat :=
  match t with
  | Leaf _ => []
  | Node a _ ch => a :: flat_map (fun kv => tests (snd kv)) ch
  end.

(** The predicted classes at the leaves, from left to right. *)
Fixpoint leaves (t : tree) : list string :=
  match t with
  | Leaf c => [c]
  | Node _ _ ch => flat_map (fun kv => leaves (snd kv)) ch
  end.

(** No node tests a column that is tested again below it. *)
Fixpoint no_retest (t : tree) : bool :=
  match t with
  | Leaf _ => true
  | Node a _ ch =>
      forallb (fun kv => negb (existsb (Nat.eqb a) (tests (snd kv)))
                         && no_retest (snd kv))%bool ch
  end.

(** Every node is named "vote" followed by the number of its column. *)
Fixpoint named_by_column (t : tree) : bool :=
  match t with
  | Leaf _ => true
  | Node a name ch =>
      (String.eqb name ("vote" ++ str_of_nat a)
       && forallb (fun kv => named_by_column (snd kv)) ch)%bool
  end.

(** The leaf label of the binarized class of a row. *)
Definition class_label (target : nat) (e : example) : string :=
  if is_republican target e then "Republicans" else "Democrats".

(** Rows that [split] cannot tell apart on any of the columns [attrs] have
    the same binarized class. *)
Definition consistent (target : nat) (attrs : list nat) (es : list example) : Prop :=
  forall e1 e2, In e1 es -> In e2 es ->
    (forall a, In a attrs -> affirmative a e1 = affirmative a e2) ->
    is_republican target e1 = is_republican target e2.

(** Every row has a field in the target column and in each column of
    [attrs]. *)
Definition rectangular (target : nat) (attrs : list nat) (es : list example) : bool :=
  (forallb (has_column target) es
   && forallb (fun a => forallb (has_column a) es) attrs)%bool.

(** ** Printing a tree: the methods [show]

    What [Node.show] and [Leaf.show] write to the standard output, as one
    string.  [print] separates its arguments by one space and ends the line
    unless told [end=' ']; [' ' * 4 * level] is [4 * level] spaces.  A leaf
    child is shown by [Leaf.show], which takes no level. *)

Definition newline : string := String (ascii_of_nat 10) "".

Fixpoint spaces (n : nat) : string :=
  match n with
  | O => ""
  | S n' => String " " (spaces n')
  end.

Fixpoint show (t : tree) (level : nat) : string :=
  match t with
  | Leaf c => ("Predicted class: " ++ c ++ newline)%string
  | Node _ name ch =>
      ("Test: " ++ name ++ newline ++
       (fix each (d : dict tree) : string :=
          match d with
          | [] => ""
          | (val, subtree) :: d' =>
              spaces (4 * level) ++ " if " ++ name ++ " = " ++ val ++ " ==> " ++
              show subtree (S level) ++ each d'
          end) ch)%string
  end.

(** Number of nodes and leaves. *)
Fixpoint size (t : tree) : nat :=
  match t with
  | Leaf _ => 1
  | Node _ _ ch => S (list_sum (map (fun kv => size (snd kv)) ch))
  end.

Fixpoint count_newlines (s : string) : nat :=
  match s with
  | EmptyString => 0
  | String c s' =>
      (if Ascii.eqb c (ascii_of_nat 10) then 1 else 0) + count_newlines s'
  end.

(** No name, key or class of the tree contains a line break. *)
Fixpoint plain_labels (t : tree) : bool :=
  match t with
  | Leaf c => Nat.eqb (count_newlines c) 0
  | Node _ name ch =>
      (Nat.eqb (count_newlines name) 0
       && forallb (fun kv => Nat.eqb (count_newlines (fst kv)) 0
                             && plain_labels (snd kv)) ch)%bool
  end.

(** ** Facts about the built-ins *)

Lemma bind_Ok_inv {A B : Type} (m : result A) (k : A -> result B) (b : B) :
  bind m k = Ok b -> exists a, m = Ok a /\ k a = Ok b.
Proof. destruct m as [a|e]; simpl; intros H; [eauto | discriminate]. Qed.

Lemma bind_Raise_inv {A B : Type} (m : result A) (k : A -> result B) (e : exn) :
  bind m k = Raise e -> m = Raise e \/ exists a, m = Ok a /\ k a = Raise e.
Proof. destruct m as [a|e']; simpl; intros H; [right; eauto | left; congruence]. Qed.

Lemma has_column_Some (i : nat) (e : example) :
  has_column i e = true <-> exists x, nth_error e i = Some x.
Proof.
  unfold has_column. rewrite Nat.ltb_lt, <- nth_error_Some.
  destruct (nth_error e i) as [x|]; split; intros H; eauto; try congruence.
  destruct H as [x H]; discriminate.
Qed.

Lemma has_column_None (i : nat) (e : example) :
  has_column i e = false <-> nth_error e i = None.
Proof.
  unfold has_column. rewrite Nat.ltb_ge, <- nth_error_None. reflexivity.
Qed.

Lemma getitem_Ok {A : Type} (xs : list A) (i : nat) (x : A) :
  getitem xs i = Ok x <-> nth_error xs i = Some x.
Proof.
  unfold getitem. destruct (nth_error xs i); split; intros H; congruence.
Qed.

Lemma getitem_Raise {A : Type} (xs : list A) (i : nat) (e : exn) :
  getitem xs i = Raise e -> e = IndexError /\ nth_error xs i = None.
Proof.
  unfold getitem. destruct (nth_error xs i); intros H; [discriminate|].
  split; congruence.
Qed.

Lemma list_remove_In (x : nat) (xs : list nat) :
  In x xs -> exists r, list_remove x xs = Ok r.
Proof.
  induction xs as [|y ys IH]; simpl; intros H; [contradiction|].
  destruct (Nat.eqb y x) eqn:E; [eauto|].
  destruct H as [H|H]; [subst; rewrite Nat.eqb_refl in E; discriminate|].
  destruct (IH H) as [r Hr]. rewrite Hr. simpl. eauto.
Qed.

Lemma list_remove_length (x : nat) (xs r : list nat) :
  list_remove x xs = Ok r -> List.length xs = S (List.length r).
Proof.
  revert r. induction xs as [|y ys IH]; simpl; intros r H; [discriminate|].
  destruct (Nat.eqb y x); [injection H as <-; reflexivity|].
  apply bind_Ok_inv in H. destruct H as [r' [Hr' H]].
  injection H as <-. simpl. f_equal. apply IH. exact Hr'.
Qed.

Lemma list_remove_Raise (x : nat) (xs : list nat) (e : exn) :
  list_remove x xs = Raise e -> e = ValueError /\ ~ In x xs.
Proof.
  induction xs as [|y ys IH]; simpl; intros H.
  - split; [congruence | tauto].
  - destruct (Nat.eqb y x) eqn:E; [discriminate|].
    apply bind_Raise_inv in H. destruct H as [H | [a [_ H]]]; [|discriminate].
    destruct (IH H) as [He Hn]. split; [exact He|].
    intros [Hy|Hy]; [subst; rewrite Nat.eqb_refl in E; discriminate | tauto].
Qed.

Lemma mapM_length {A B : Type} (f : A -> result B) (xs : list A) (ys : list B) :
  mapM f xs = Ok ys -> List.length ys = List.length xs.
Proof.
  revert ys. induction xs as [|x xs IH]; simpl; intros ys H.
  - injection H as <-. reflexivity.
  - apply bind_Ok_inv in H. destruct H as [y [_ H]].
    apply bind_Ok_inv in H. destruct H as [ys' [Hys H]].
    injection H as <-. simpl. f_equal. apply IH. exact Hys.
Qed.

Lemma mapM_Raise {A B : Type} (f : A -> result B) (xs : list A) (e : exn) :
  mapM f xs = Raise e -> exists x, In x xs /\ f x = Raise e.
Proof.
  induction xs as [|x xs IH]; simpl; intros H; [discriminate|].
  apply bind_Raise_inv in H. destruct H as [H | [y [_ H]]]; [eauto|].
  apply bind_Raise_inv in H. destruct H as [H | [ys [_ H]]]; [|discriminate].
  destruct (IH H) as [x' [Hin Hx']]. eauto.
Qed.

(** ** The counting loop and [split] *)

Lemma count_loop_spec (target : nat) (es : list example) (r d : nat) :
  count_loop target es r d =
  if forallb (has_column target) es
  then Ok (r + republicans_in target es, d + democrats_in target es)
  else Raise IndexError.
Proof.
  revert r d. induction es as [|e es IH]; intros r d.
  - simpl. unfold republicans_in, democrats_in. simpl.
    rewrite !Nat.add_0_r. reflexivity.
  - cbn [count_loop forallb]. unfold getitem.
    destruct (nth_error e target) as [c|] eqn:Hc.
    + assert (Hcol : has_column target e = true) by (apply has_column_Some; eauto).
      assert (Hrep : is_republican target e = String.eqb (lower c) "republican")
        by (unfold is_republican; rewrite Hc; reflexivity).
      rewrite Hcol. cbn [bind andb]. unfold republicans_in, democrats_in.
      cbn [filter]. rewrite Hrep.
      destruct (String.eqb (lower c) "republican"); rewrite IH;
        destruct (forallb (has_column target) es); try reflexivity;
        unfold republicans_in, democrats_in; cbn [negb List.length];
        f_equal; f_equal; lia.
    + assert (Hcol : has_column target e = false) by (apply has_column_None; exact Hc).
      rewrite Hcol. reflexivity.
Qed.

Lemma count_total (target : nat) (es : list example) :
  republicans_in target es + democrats_in target es = List.length es.
Proof.
  unfold republicans_in, democrats_in.
  induction es as [|e es IH]; simpl; [reflexivity|].
  destruct (is_republican target e); simpl; lia.
Qed.

Lemma split_loop_spec (a : nat) (es ys ns : list example) :
  split_loop a es ys ns =
  if forallb (has_column a) es
  then Ok [ys ++ filter (affirmative a) es;
           ns ++ filter (fun e => negb (affirmative a e)) es]
  else Raise IndexError.
Proof.
  revert ys ns. induction es as [|e es IH]; intros ys ns.
  - simpl. rewrite !app_nil_r. reflexivity.
  - cbn [split_loop forallb filter]. unfold getitem.
    destruct (nth_error e a) as [x|] eqn:Hx.
    + assert (Hcol : has_column a e = true) by (apply has_column_Some; eauto).
      assert (Haff : affirmative a e = (String.eqb x "Yea" || String.eqb x "Present")%bool)
        by (unfold affirmative; rewrite Hx; reflexivity).
      rewrite Hcol, Haff. cbn [bind andb].
      destruct (String.eqb x "Yea" || String.eqb x "Present")%bool; rewrite IH;
        destruct (forallb (has_column a) es); try reflexivity;
        cbn [negb]; rewrite <- !app_assoc; reflexivity.
    + assert (Hcol : has_column a e = false) by (apply has_column_None; exact Hx).
      rewrite Hcol. reflexivity.
Qed.

Lemma split_spec (a : nat) (es : list example) :
  split a es =
  if forallb (has_column a) es
  then Ok [filter (affirmative a) es; filter (fun e => negb (affirmative a e)) es]
  else Raise IndexError.
Proof. unfold split. rewrite split_loop_spec. reflexivity. Qed.

Lemma plurality_value_spec (target : nat) (es : list example) :
  plurality_value target es =
  if forallb (has_column target) es
  then Ok (if Nat.leb (republicans_in target es) (democrats_in target es)
           then Leaf "Democrats" else Leaf "Republicans")
  else Raise IndexError.
Proof.
  unfold plurality_value. rewrite count_loop_spec.
  destruct (forallb (has_column target) es); reflexivity.
Qed.

Lemma same_classification_spec (target : nat) (es : list example) :
  same_classification target es =
  if forallb (has_column target) es
  then Ok (if Nat.eqb (republicans_in target es) 0 then Some (Leaf "Democrats")
           else if Nat.eqb (democrats_in target es) 0 then Some (Leaf "Republicans")
           else None)
  else Raise IndexError.
Proof.
  unfold same_classification. rewrite count_loop_spec.
  destruct (forallb (has_column target) es); [|reflexivity].
  cbn [bind Nat.add].
  destruct (Nat.eqb (republicans_in target es) 0); [reflexivity|].
  destruct (Nat.eqb (democrats_in target es) 0); reflexivity.
Qed.

(** C6.  On rows that all have a target field, [plurality_value] answers
    Leaf("Democrats") when the two binarized classes are equally frequent,
    the empty list included, and otherwise the leaf of the strictly more
    frequent class. *)
Theorem plurality_value_majority (target : nat) (es : list example) :
  forallb (has_column target) es = true ->
  (republicans_in target es = democrats_in target es ->
   plurality_value target es = Ok (Leaf "Democrats")) /\
  (republicans_in target es < democrats_in target es ->
   plurality_value target es = Ok (Leaf "Democrats")) /\
  (democrats_in target es < republicans_in target es ->
   plurality_value target es = Ok (Leaf "Republicans")) /\
  plurality_value target [] = Ok (Leaf "Democrats").
Proof.
  intros Hcols. rewrite plurality_value_spec, Hcols.
  repeat split.
  - intros H. rewrite H, Nat.leb_refl. reflexivity.
  - intros H. apply Nat.lt_le_incl, Nat.leb_le in H. rewrite H. reflexivity.
  - intros H. apply Nat.leb_gt in H. rewrite H. reflexivity.
Qed.

Lemma plurality_value_majority_witness :
  forallb (has_column 0) [["republican"]; ["Democrat"]; ["REPUBLICAN"]] = true /\
  plurality_value 0 [["republican"]; ["Democrat"]; ["REPUBLICAN"]] = Ok (Leaf "Republicans").
Proof.
  split; [reflexivity|].
  apply (plurality_value_majority 0 [["republican"]; ["Democrat"]; ["REPUBLICAN"]]);
    [reflexivity | vm_compute; lia].
Defined.

(** C7.  On rows that all have a field in column [a], [split] returns the
    two groups in the order affirmative, negative: the rows whose field is
    "Yea" or "Present" and the remaining rows, each in input order.  On the
    values Yea, Present, Nay, Absent both groups have two rows. *)
Theorem split_groups (a : nat) (es : list example) :
  forallb (has_column a) es = true ->
  split a es = Ok [filter (affirmative a) es;
                   filter (fun e => negb (affirmative a e)) es] /\
  split 0 four_values = Ok [[["Yea"]; ["Present"]]; [["Nay"]; ["Absent"]]].
Proof.
  intros Hcols. split; [|reflexivity].
  rewrite split_spec, Hcols. reflexivity.
Qed.

Lemma split_groups_witness :
  forallb (has_column 1) (examples votex_dataset) = true /\
  split 1 (examples votex_dataset) =
  Ok [[["republican"; "Yea"]; ["democrat"; "Yea"]];
      [["republican"; "Nay"]; ["democrat"; "Nay"]]].
Proof.
  split; [reflexivity|].
  exact (proj1 (split_groups 1 (examples votex_dataset) eq_refl)).
Defined.

(** ** Classification *)

Lemma dict_get_None {V : Type} (d : dict V) (k : string) :
  dict_get d k = None <-> ~ In k (keys d).
Proof.
  induction d as [|[k' v] d IH]; simpl.
  - tauto.
  - destruct (String.eqb k' k) eqn:E.
    + apply String.eqb_eq in E. split; [discriminate | intros H; exfalso; auto].
    + apply String.eqb_neq in E. rewrite IH. tauto.
Qed.

Lemma dict_get_In {V : Type} (d : dict V) (k : string) (v : V) :
  dict_get d k = Some v -> In (k, v) d.
Proof.
  induction d as [|[k' v'] d IH]; simpl; [discriminate|].
  destruct (String.eqb k' k) eqn:E.
  - apply String.eqb_eq in E. intros H. left. congruence.
  - auto.
Qed.

Lemma classify_Node (a : nat) (name : string) (ch : dict tree) (ex : example) :
  classify (Node a name ch) ex =
  v <- getitem ex a ;;
  match dict_get ch v with
  | Some sub => classify sub ex
  | None => Raise KeyError
  end.
Proof.
  cbn [classify]. destruct (getitem ex a) as [v|e]; [|reflexivity].
  cbn [bind]. induction ch as [|[k sub] ch IH]; [reflexivity|].
  cbn [dict_get]. destruct (String.eqb k v); [reflexivity | exact IH].
Qed.

Lemma classify_Ok_visits (t : tree) (ex : example) (c : string) :
  classify t ex = Ok c -> visits ex t (Leaf c).
Proof.
  induction t as [c'|a name ch IH] using tree_nested_ind; intros H.
  - injection H as <-. constructor.
  - rewrite classify_Node in H. apply bind_Ok_inv in H.
    destruct H as [v [Hv H]]. apply getitem_Ok in Hv.
    destruct (dict_get ch v) as [sub|] eqn:Hsub; [|discriminate].
    eapply visits_child; eauto.
    rewrite Forall_forall in IH.
    apply (IH _ (dict_get_In _ _ _ Hsub)). exact H.
Qed.

(** Where and why a failing classification stops. *)
Lemma classify_Raise_visits (t : tree) (ex : example) (e : exn) :
  classify t ex = Raise e ->
  exists a name ch,
    visits ex t (Node a name ch) /\
    ((e = IndexError /\ nth_error ex a = None) \/
     (e = KeyError /\ exists v, nth_error ex a = Some v /\ dict_get ch v = None)).
Proof.
  induction t as [c'|a name ch IH] using tree_nested_ind; intros H;
    [discriminate|].
  rewrite classify_Node in H. apply bind_Raise_inv in H.
  destruct H as [H | [v [Hv H]]].
  - apply getitem_Raise in H. exists a, name, ch.
    split; [constructor | left; exact H].
  - apply getitem_Ok in Hv. destruct (dict_get ch v) as [sub|] eqn:Hsub.
    + rewrite Forall_forall in IH.
      destruct (IH _ (dict_get_In _ _ _ Hsub) H) as [a' [name' [ch' [Hvis Hwhy]]]].
      exists a', name', ch'. split; [|exact Hwhy].
      eapply visits_child; eauto.
    + exists a, name, ch. split; [constructor|]. right.
      split; [congruence | eauto].
Qed.

Lemma visits_stuck_Raise (ex : example) (t n : tree) :
  visits ex t n ->
  forall a name ch, n = Node a name ch ->
  ~ (exists v, nth_error ex a = Some v /\ In v (keys ch)) ->
  exists e, classify t ex = Raise e.
Proof.
  induction 1 as [t | a' name' ch' v sub t Hv Hsub Hvis IH];
    intros a name ch -> Hstuck.
  - rewrite classify_Node. unfold getitem.
    destruct (nth_error ex a) as [v|] eqn:Hv; [|eexists; reflexivity].
    cbn [bind]. destruct (dict_get ch v) as [sub|] eqn:Hsub; [|eexists; reflexivity].
    exfalso. apply Hstuck. exists v. split; [reflexivity|].
    apply dict_get_In in Hsub. unfold keys. apply in_map_iff.
    exists (v, sub). split; [reflexivity | exact Hsub].
  - rewrite classify_Node. unfold getitem. rewrite Hv. cbn [bind]. rewrite Hsub.
    eapply IH; eauto.
Qed.

(** C5.  [classify] returns the class of a [Leaf]; at a [Node] it looks the
    example's value in the tested column up in the children and goes on in
    the child found.  It raises exactly when it reaches a node where the
    example has no value that is a key of the children; the exception is
    then a [LookupError] ([KeyError] for a value that is no key,
    [IndexError] for a row too short to hold the column).  A class that is
    returned is always that of a leaf reached through matching keys: no
    class is made up. *)
Theorem classify_lookup (t : tree) (ex : example) :
  (forall c, classify (Leaf c) ex = Ok c) /\
  (forall a name ch,
      classify (Node a name ch) ex =
      v <- getitem ex a ;;
      match dict_get ch v with
      | Some sub => classify sub ex
      | None => Raise KeyError
      end) /\
  ((exists e, classify t ex = Raise e) <->
   (exists a name ch,
       visits ex t (Node a name ch) /\
       ~ (exists v, nth_error ex a = Some v /\ In v (keys ch)))) /\
  (forall e, classify t ex = Raise e -> is_LookupError e = true) /\
  (forall a name ch v,
      visits ex t (Node a name ch) -> nth_error ex a = Some v ->
      ~ In v (keys ch) -> classify t ex = Raise KeyError) /\
  (forall c, classify t ex = Ok c -> visits ex t (Leaf c)).
Proof.
  split; [reflexivity|]. split; [intros; apply classify_Node|].
  split; [|split; [|split]].
  - split.
    + intros [e He]. apply classify_Raise_visits in He.
      destruct He as [a [name [ch [Hvis Hwhy]]]]. exists a, name, ch.
      split; [exact Hvis|]. intros [v [Hv Hin]].
      destruct Hwhy as [[_ Hnone] | [_ [v' [Hv' Hnone]]]]; [congruence|].
      apply dict_get_None in Hnone. congruence.
    + intros [a [name [ch [Hvis Hstuck]]]].
      eapply visits_stuck_Raise; eauto.
  - intros e He. apply classify_Raise_visits in He.
    destruct He as [a [name [ch [_ [[-> _] | [-> _]]]]]]; reflexivity.
  - intros a name ch v Hvis. remember (Node a name ch) as n eqn:Hn.
    revert a name ch v Hn.
    induction Hvis as [t | a' name' ch' v' sub t Hv' Hsub Hvis IH];
      intros a name ch v -> Hv Hnot.
    + rewrite classify_Node. unfold getitem. rewrite Hv. cbn [bind].
      apply dict_get_None in Hnot. rewrite Hnot. reflexivity.
    + rewrite classify_Node. unfold getitem. rewrite Hv'. cbn [bind].
      rewrite Hsub. eapply IH; eauto.
  - apply classify_Ok_visits.
Qed.

(** ** Entropy, information gain and [argmax] *)

Lemma truediv_Raise (a b : nat) (e : exn) :
  truediv a b = Raise e -> e = ZeroDivisionError /\ b = 0.
Proof.
  unfold truediv. destruct (Nat.eqb b 0) eqn:E; [|discriminate].
  apply Nat.eqb_eq in E. intros H. split; congruence.
Qed.

Lemma truediv_Ok (a b : nat) :
  b <> 0 -> truediv a b = Ok (float_of_nat a / float_of_nat b)%float.
Proof.
  intros Hb. unfold truediv. apply Nat.eqb_neq in Hb. rewrite Hb. reflexivity.
Qed.

Lemma max_loop_bound (xs : list float) (i : nat) (best : nat * float) :
  fst best < i -> fst (max_loop xs i best) < i + List.length xs.
Proof.
  revert i best. induction xs as [|x xs IH]; intros i best Hb; simpl.
  - lia.
  - replace (i + S (List.length xs)) with (S i + List.length xs) by lia.
    apply IH. destruct (snd best <? x)%float; simpl; lia.
Qed.

Lemma py_max_bound (xs : list float) (m : nat * float) :
  py_max xs = Ok m -> fst m < List.length xs.
Proof.
  destruct xs as [|x xs]; simpl; intros H; [discriminate|].
  injection H as <-. apply (max_loop_bound xs 1 (0, x)). simpl. lia.
Qed.

Lemma index_loop_found (xs : list float) (j : nat) (m : nat * float) :
  j <= fst m -> fst m < j + List.length xs ->
  exists i, index_loop xs j m = Ok i /\ j <= i /\ i <= fst m.
Proof.
  revert j. induction xs as [|x xs IH]; intros j Hlo Hhi; simpl in *.
  - lia.
  - destruct (Nat.eqb j (fst m)) eqn:E; cbn [orb].
    + exists j. repeat split; lia.
    + apply Nat.eqb_neq in E. destruct (x =? snd m)%float.
      * exists j. repeat split; lia.
      * destruct (IH (S j)) as [i [Hi Hb]]; [lia | lia |].
        exists i. split; [exact Hi | lia].
Qed.

Section LearnerFacts.

Variable math_log2 : float -> float.
Variable target : nat.


(** [entropy] divides by the number of rows: it raises
    [ZeroDivisionError] on the empty list and on no other list. *)
Lemma entropy_cases (es : list example) :
  (es = [] /\ entropy math_log2 target es = Raise ZeroDivisionError) \/
  (es <> [] /\ forallb (has_column target) es = false /\ entropy math_log2 target es = Raise IndexError) \/
  (es <> [] /\ forallb (has_column target) es = true /\ exists h, entropy math_log2 target es = Ok h).
Proof.
  destruct es as [|e es]; [left; split; reflexivity|].
  right. unfold entropy. rewrite count_loop_spec.
  destruct (forallb (has_column target) (e :: es)) eqn:Hcols.
  - right. split; [discriminate|]. split; [reflexivity|].
    cbn [bind Nat.add]. rewrite count_total.
    rewrite !truediv_Ok by (simpl; lia). cbn [bind]. eexists; reflexivity.
  - left. split; [discriminate|]. split; reflexivity.
Qed.

Lemma entropy_ZeroDivisionError (es : list example) :
  entropy math_log2 target es = Raise ZeroDivisionError <-> es = [].
Proof.
  destruct (entropy_cases es) as [[-> H] | [[Hne [_ H]] | [Hne [_ [h H]]]]];
    rewrite H; split; intros H'; try reflexivity; try discriminate; contradiction.
Qed.

Lemma entropy_Raise (es : list example) (e : exn) :
  entropy math_log2 target es = Raise e ->
  (e = ZeroDivisionError /\ es = []) \/ (e = IndexError /\ es <> []).
Proof.
  destruct (entropy_cases es) as [[-> H] | [[Hne [_ H]] | [Hne [_ [h H]]]]];
    rewrite H; intros H'; try discriminate; injection H' as <-; auto.
Qed.

Lemma children_loop_Raise (parent : list example) (children : list (list example))
    (acc : float) (e : exn) :
  children_loop math_log2 target parent children acc = Raise e ->
  (e = ZeroDivisionError /\ parent = []) \/ e = IndexError.
Proof.
  revert acc. induction children as [|child rest IH]; intros acc; simpl;
    [discriminate|].
  destruct (Nat.eqb (List.length child) 0) eqn:Hlen; [apply IH|].
  intros H. apply bind_Raise_inv in H. destruct H as [H | [w [_ H]]].
  - apply truediv_Raise in H. destruct H as [-> Hp].
    left. split; [reflexivity|]. destruct parent; [reflexivity | discriminate].
  - apply bind_Raise_inv in H. destruct H as [H | [h [_ H]]]; [|eapply IH; eauto].
    apply entropy_Raise in H. destruct H as [[_ ->] | [-> _]]; [discriminate | auto].
Qed.

Lemma information_gain_Raise (parent : list example) (children : list (list example))
    (e : exn) :
  information_gain math_log2 target parent children = Raise e ->
  (e = ZeroDivisionError /\ parent = []) \/ e = IndexError.
Proof.
  unfold information_gain. intros H.
  apply bind_Raise_inv in H. destruct H as [H | [acc [_ H]]].
  - eapply children_loop_Raise; eauto.
  - apply bind_Raise_inv in H. destruct H as [H | [h [_ H]]]; [|discriminate].
    apply entropy_Raise in H. destruct H as [[-> ->] | [-> _]]; auto.
Qed.

(** [argmax] returns one of the candidate attributes; it can only fail on
    a malformed row, on an empty candidate list or on an empty example
    list. *)
Lemma argmax_cases (attrs : list nat) (es : list example) :
  (exists A, argmax math_log2 target attrs es = Ok A /\ In A attrs /\
             forallb (has_column A) es = true) \/
  argmax math_log2 target attrs es = Raise IndexError \/
  (argmax math_log2 target attrs es = Raise ValueError /\ attrs = []) \/
  (argmax math_log2 target attrs es = Raise ZeroDivisionError /\ es = []).
Proof.
  unfold argmax.
  destruct (mapM _ attrs) as [gains|e] eqn:Hgains.
  - cbn [bind]. pose proof (mapM_length _ _ _ Hgains) as Hlen.
    destruct (py_max gains) as [m|e] eqn:Hmax.
    + cbn [bind]. pose proof (py_max_bound _ _ Hmax) as Hm.
      destruct (index_loop_found gains 0 m) as [i [Hi [_ Hle]]]; [lia | lia |].
      unfold py_index. rewrite Hi. cbn [bind]. unfold getitem.
      destruct (nth_error attrs i) as [A|] eqn:HA.
      * left. exists A. split; [reflexivity|]. split; [eapply nth_error_In; eauto|].
        apply nth_error_In in HA.
        clear - Hgains HA. revert gains Hgains.
        induction attrs as [|a attrs IH]; intros gains Hgains; [contradiction|].
        cbn [mapM] in Hgains. apply bind_Ok_inv in Hgains.
        destruct Hgains as [g [Hg Hgains]].
        apply bind_Ok_inv in Hgains. destruct Hgains as [gs [Hgs _]].
        destruct HA as [->|HA]; [|eapply IH; eauto].
        apply bind_Ok_inv in Hg. destruct Hg as [parts [Hparts _]].
        rewrite split_spec in Hparts.
        destruct (forallb (has_column A) es); [reflexivity | discriminate].
      * apply nth_error_None in HA. lia.
    + destruct gains as [|g gains]; [|discriminate].
      injection Hmax as <-. right. right. left. split; [reflexivity|].
      destruct attrs; [reflexivity | discriminate].
  - cbn [bind]. apply mapM_Raise in Hgains. destruct Hgains as [a [_ Ha]].
    apply bind_Raise_inv in Ha. destruct Ha as [Ha | [parts [_ Ha]]].
    + rewrite split_spec in Ha.
      destruct (forallb (has_column a) es); [discriminate|].
      injection Ha as <-. auto.
    + apply information_gain_Raise in Ha. destruct Ha as [[-> ->] | ->]; auto.
Qed.

(** ** The recursion of [decision_tree_learning] *)

Lemma for_loop_two
    (rec : list example -> list nat -> list example -> Z -> option (result tree))
    (A : nat) (es : list example) (attrs : list nat) (depth : Z) (name : string) :
  for_loop rec A es attrs depth [0; 1] (Node_init A name) =
  if forallb (has_column A) es then
    match list_remove A attrs with
    | Raise e => Some (Raise e)
    | Ok temp_attrs =>
        node_of_branches A name
          (rec (filter (affirmative A) es) temp_attrs es (depth - 1)%Z)
          (rec (filter (fun e => negb (affirmative A e)) es) temp_attrs es (depth - 1)%Z)
    end
  else Some (Raise IndexError).
Proof.
  cbn [for_loop]. unfold loop_args. rewrite split_spec.
  destruct (forallb (has_column A) es); [|reflexivity].
  cbn [bind getitem nth_error].
  destruct (list_remove A attrs) as [temp_attrs|e]; reflexivity.
Qed.

(** The recursive case of [decision_tree_learning]: the two calls are made
    on the two groups of the split, with the chosen attribute removed from
    the candidates and the depth decreased by one. *)
Lemma decision_tree_learning_step (fuel : nat) (es : list example)
    (attrs : list nat) (parent : list example) (depth : Z) (A : nat)
    (temp_attrs : list nat) :
  depth <> 0%Z -> es <> [] -> same_classification target es = Ok None ->
  attrs <> [] -> argmax math_log2 target attrs es = Ok A ->
  list_remove A attrs = Ok temp_attrs ->
  decision_tree_learning math_log2 target (S fuel) es attrs parent depth =
  node_of_branches A ("vote" ++ str_of_nat A)
    (decision_tree_learning math_log2 target fuel
       (filter (affirmative A) es) temp_attrs es (depth - 1)%Z)
    (decision_tree_learning math_log2 target fuel
       (filter (fun e => negb (affirmative A e)) es) temp_attrs es (depth - 1)%Z).
Proof.
  intros Hdepth Hes Hsame Hattrs HA Htemp. cbn [decision_tree_learning].
  apply Z.eqb_neq in Hdepth. rewrite Hdepth.
  destruct es as [|e es']; [contradiction|]. cbn [List.length Nat.eqb].
  rewrite Hsame. destruct attrs as [|a attrs']; [contradiction|].
  cbn [List.length Nat.eqb]. rewrite HA, for_loop_two, Htemp.
  destruct (argmax_cases (a :: attrs') (e :: es')) as [[A' [HA' [_ Hcols]]] | Hbad].
  - assert (A' = A) by congruence. subst A'. rewrite Hcols. reflexivity.
  - rewrite HA in Hbad. destruct Hbad as [H | [[H _] | [H _]]]; discriminate.
Qed.

Lemma plurality_value_Ok (es : list example) (t : tree) :
  plurality_value target es = Ok t -> exists c, t = Leaf c.
Proof.
  rewrite plurality_value_spec.
  destruct (forallb (has_column target) es); [|discriminate].
  destruct (Nat.leb _ _); intros H; injection H as <-; eauto.
Qed.

Lemma plurality_value_Raise (es : list example) (e : exn) :
  plurality_value target es = Raise e -> e = IndexError.
Proof.
  rewrite plurality_value_spec.
  destruct (forallb (has_column target) es); [discriminate | congruence].
Qed.

Lemma same_classification_Ok (es : list example) (t : tree) :
  same_classification target es = Ok (Some t) -> exists c, t = Leaf c.
Proof.
  rewrite same_classification_spec.
  destruct (forallb (has_column target) es); [|discriminate].
  destruct (Nat.eqb (republicans_in target es) 0);
    [intros H; injection H as <-; eauto|].
  destruct (Nat.eqb (democrats_in target es) 0); intros H;
    [injection H as <-; eauto | discriminate].
Qed.

Lemma same_classification_Raise (es : list example) (e : exn) :
  same_classification target es = Raise e -> e = IndexError.
Proof.
  rewrite same_classification_spec.
  destruct (forallb (has_column target) es); [|congruence].
  destruct (Nat.eqb _ 0); [discriminate|]. destruct (Nat.eqb _ 0); discriminate.
Qed.

(** How a call with fuel left proceeds: it answers at once, with a leaf or
    an [IndexError] and whatever the fuel, or it is in the recursive case. *)
Lemma decision_tree_learning_cases (es : list example) (attrs : list nat)
    (parent : list example) (depth : Z) :
  (exists r,
      (forall fuel,
          decision_tree_learning math_log2 target (S fuel) es attrs parent depth
          = Some r) /\
      ((exists c, r = Ok (Leaf c)) \/ r = Raise IndexError)) \/
  (exists A temp_attrs,
      depth <> 0%Z /\ es <> [] /\ same_classification target es = Ok None /\
      attrs <> [] /\ argmax math_log2 target attrs es = Ok A /\
      list_remove A attrs = Ok temp_attrs /\
      List.length attrs = S (List.length temp_attrs)).
Proof.
  assert (Hpv : forall xs,
             (exists c, plurality_value target xs = Ok (Leaf c)) \/
             plurality_value target xs = Raise IndexError).
  { intros xs. destruct (plurality_value target xs) as [t|e] eqn:H.
    - left. apply plurality_value_Ok in H. destruct H as [c ->]. eauto.
    - right. apply plurality_value_Raise in H. subst. reflexivity. }
  destruct (depth =? 0)%Z eqn:Hdepth.
  { left. exists (plurality_value target es). split; [|apply Hpv].
    intros fuel. cbn [decision_tree_learning]. rewrite Hdepth. reflexivity. }
  destruct es as [|e es'].
  { left. exists (plurality_value target parent). split; [|apply Hpv].
    intros fuel. cbn [decision_tree_learning]. rewrite Hdepth. reflexivity. }
  destruct (same_classification target (e :: es')) as [[leaf|]|err] eqn:Hsame.
  - left. exists (Ok leaf). split.
    + intros fuel. cbn [decision_tree_learning List.length Nat.eqb].
      rewrite Hdepth, Hsame. reflexivity.
    + left. apply same_classification_Ok in Hsame. destruct Hsame as [c ->]. eauto.
  - destruct attrs as [|a attrs'].
    { left. exists (plurality_value target (e :: es')). split; [|apply Hpv].
      intros fuel. cbn [decision_tree_learning List.length Nat.eqb].
      rewrite Hdepth, Hsame. reflexivity. }
    destruct (argmax_cases (a :: attrs') (e :: es'))
      as [[A [HA [Hin Hcols]]] | [H | [[_ H] | [_ H]]]]; try discriminate.
    + destruct (list_remove_In _ _ Hin) as [temp_attrs Htemp].
      right. exists A, temp_attrs.
      apply Z.eqb_neq in Hdepth.
      repeat split; try assumption; try discriminate.
      apply list_remove_length in Htemp. exact Htemp.
    + left. exists (Raise IndexError). split; [|auto].
      intros fuel. cbn [decision_tree_learning List.length Nat.eqb].
      rewrite Hdepth, Hsame, H. reflexivity.
  - left. exists (Raise err). split.
    + intros fuel. cbn [decision_tree_learning List.length Nat.eqb].
      rewrite Hdepth, Hsame. reflexivity.
    + right. apply same_classification_Raise in Hsame. subst. reflexivity.
Qed.

Lemma decision_tree_learning_fuel (fuel1 fuel2 : nat) (es : list example)
    (attrs : list nat) (parent : list example) (depth : Z) :
  List.length attrs < fuel1 -> List.length attrs < fuel2 ->
  decision_tree_learning math_log2 target fuel1 es attrs parent depth =
  decision_tree_learning math_log2 target fuel2 es attrs parent depth.
Proof.
  revert fuel2 es attrs parent depth.
  induction fuel1 as [|fuel1 IH]; intros fuel2 es attrs parent depth H1 H2; [lia|].
  destruct fuel2 as [|fuel2]; [lia|].
  destruct (decision_tree_learning_cases es attrs parent depth)
    as [[r [Hr _]] | [A [temp_attrs [Hd [Hes [Hsame [Hattrs [HA [Htemp Hlen]]]]]]]]].
  - rewrite !Hr. reflexivity.
  - rewrite !(decision_tree_learning_step _ es attrs parent depth A temp_attrs)
      by assumption.
    f_equal; apply IH; lia.
Qed.

Lemma decision_tree_learning_returns (fuel : nat) (es : list example)
    (attrs : list nat) (parent : list example) (depth : Z) :
  List.length attrs < fuel ->
  exists r, decision_tree_learning math_log2 target fuel es attrs parent depth = Some r.
Proof.
  revert es attrs parent depth.
  induction fuel as [|fuel IH]; intros es attrs parent depth Hfuel; [lia|].
  destruct (decision_tree_learning_cases es attrs parent depth)
    as [[r [Hr _]] | [A [temp_attrs [Hd [Hes [Hsame [Hattrs [HA [Htemp Hlen]]]]]]]]].
  - exists r. apply Hr.
  - rewrite (decision_tree_learning_step _ es attrs parent depth A temp_attrs)
      by assumption.
    destruct (IH (filter (affirmative A) es) temp_attrs es (depth - 1)%Z)
      as [ry Hy]; [lia|].
    destruct (IH (filter (fun e => negb (affirmative A e)) es) temp_attrs es (depth - 1)%Z)
      as [rn Hn]; [lia|].
    rewrite Hy, Hn. unfold node_of_branches.
    destruct ry as [y|e]; [|eauto]. destruct rn as [n|e]; eauto.
Qed.

(** No exception other than [IndexError], which a row too short for a
    column raises, leaves [decision_tree_learning]. *)
Lemma decision_tree_learning_Raise (fuel : nat) (es : list example)
    (attrs : list nat) (parent : list example) (depth : Z) (e : exn) :
  decision_tree_learning math_log2 target fuel es attrs parent depth = Some (Raise e) ->
  e = IndexError.
Proof.
  revert es attrs parent depth.
  induction fuel as [|fuel IH]; intros es attrs parent depth H; [discriminate|].
  destruct (decision_tree_learning_cases es attrs parent depth)
    as [[r [Hr Hwhat]] | [A [temp_attrs [Hd [Hes [Hsame [Hattrs [HA [Htemp Hlen]]]]]]]]].
  - rewrite Hr in H. injection H as ->.
    destruct Hwhat as [[c Hc] | Hc]; congruence.
  - rewrite (decision_tree_learning_step _ es attrs parent depth A temp_attrs) in H
      by assumption.
    unfold node_of_branches in H.
    destruct (decision_tree_learning math_log2 target fuel
                (filter (affirmative A) es) temp_attrs es (depth - 1)%Z)
      as [[y|ey]|] eqn:Hy; try discriminate.
    + destruct (decision_tree_learning math_log2 target fuel
                  (filter (fun e => negb (affirmative A e)) es) temp_attrs es (depth - 1)%Z)
        as [[n|en]|] eqn:Hn; try discriminate.
      injection H as <-. eapply IH; eauto.
    + injection H as <-. eapply IH; eauto.
Qed.

Lemma decision_tree_learning_two_branches (fuel : nat) (es : list example)
    (attrs : list nat) (parent : list example) (depth : Z) (t : tree) :
  decision_tree_learning math_log2 target fuel es attrs parent depth = Some (Ok t) ->
  two_branches t = true.
Proof.
  revert es attrs parent depth t.
  induction fuel as [|fuel IH]; intros es attrs parent depth t H; [discriminate|].
  destruct (decision_tree_learning_cases es attrs parent depth)
    as [[r [Hr Hwhat]] | [A [temp_attrs [Hd [Hes [Hsame [Hattrs [HA [Htemp Hlen]]]]]]]]].
  - rewrite Hr in H. injection H as ->.
    destruct Hwhat as [[c Hc] | Hc]; [|discriminate].
    injection Hc as ->. reflexivity.
  - rewrite (decision_tree_learning_step _ es attrs parent depth A temp_attrs) in H
      by assumption.
    unfold node_of_branches in H.
    destruct (decision_tree_learning math_log2 target fuel
                (filter (affirmative A) es) temp_attrs es (depth - 1)%Z)
      as [[y|ey]|] eqn:Hy; try discriminate.
    destruct (decision_tree_learning math_log2 target fuel
                (filter (fun e => negb (affirmative A e)) es) temp_attrs es (depth - 1)%Z)
      as [[n|en]|] eqn:Hn; try discriminate.
    injection H as <-. cbn [two_branches].
    rewrite (IH _ _ _ _ _ Hy), (IH _ _ _ _ _ Hn). reflexivity.
Qed.

Lemma decision_tree_learning_no_attrs (fuel : nat) (es parent : list example)
    (depth : Z) :
  es <> [] -> same_classification target es = Ok None ->
  decision_tree_learning math_log2 target (S fuel) es [] parent depth =
  Some (plurality_value target es).
Proof.
  intros Hes Hsame. cbn [decision_tree_learning].
  destruct (depth =? 0)%Z; [reflexivity|].
  destruct es as [|e es']; [contradiction|].
  cbn [List.length Nat.eqb]. rewrite Hsame. reflexivity.
Qed.

End LearnerFacts.

Lemma two_branches_keys (a : nat) (name : string) (ch : dict tree) :
  two_branches (Node a name ch) = true ->
  exists y n, ch = [("Yea", y); ("Nay", n)] /\
              two_branches y = true /\ two_branches n = true.
Proof.
  cbn [two_branches].
  destruct ch as [|[k1 y] [|[k2 n] [|kv ch]]]; try discriminate.
  intros H. apply andb_prop in H. destruct H as [H Hn].
  apply andb_prop in H. destruct H as [H Hy].
  apply andb_prop in H. destruct H as [H1 H2].
  apply String.eqb_eq in H1, H2. subst. eauto.
Qed.

(** ** Properties of induction *)

(** C2.  With depth 0 [decision_tree_learning] answers
    [plurality_value(examples)] before anything else is looked at: whatever
    the candidate attributes and the parent examples, and also when
    [examples] is empty (the plurality of the parent examples, which the
    empty-examples test would return, is not consulted).  That answer is a
    leaf, never a node; on rows that all have a target field it is the leaf
    of the plurality class.  The same holds for [learn_decision_tree] called
    with depth limit 0. *)
Theorem depth_zero_returns_plurality (math_log2 : float -> float) (target : nat)
    (fuel : nat) (es : list example) (attrs : list nat) (parent : list example) :
  decision_tree_learning math_log2 target (S fuel) es attrs parent 0 =
    Some (plurality_value target es) /\
  (decision_tree_learning math_log2 0 (S fuel) [] attrs [["republican"]] 0 =
     Some (Ok (Leaf "Democrats")) /\
   plurality_value 0 [["republican"]] = Ok (Leaf "Republicans")) /\
  (forall t, plurality_value target es = Ok t -> exists c, t = Leaf c) /\
  (forallb (has_column target) es = true ->
   plurality_value target es =
   Ok (Leaf (if Nat.leb (republicans_in target es) (democrats_in target es)
             then "Democrats" else "Republicans"))) /\
  (forall dataset target_name feature_names features,
      index_str target_name (attributes dataset) = Ok target ->
      mapM (fun name => index_str name (attributes dataset)) feature_names
        = Ok features ->
      examples dataset = es ->
      learn_decision_tree math_log2 (S fuel) dataset target_name feature_names 0 =
        Some (plurality_value target es)).
Proof.
  split; [reflexivity|]. split; [split; reflexivity|].
  split; [apply plurality_value_Ok|]. split.
  - intros Hcols. rewrite plurality_value_spec, Hcols.
    destruct (Nat.leb _ _); reflexivity.
  - intros dataset target_name feature_names features Ht Hf <-.
    unfold learn_decision_tree. rewrite Ht, Hf. reflexivity.
Qed.

(** C4.  In a tree returned by [decision_tree_learning] every node has
    exactly two children, the first stored under "Yea" and the second under
    "Nay"; they are attached before the node is returned, whether or not a
    group of the split is empty. *)
Theorem induced_nodes_two_children (math_log2 : float -> float) (target : nat)
    (fuel : nat) (es : list example) (attrs : list nat) (parent : list example)
    (depth : Z) (t : tree) :
  decision_tree_learning math_log2 target fuel es attrs parent depth = Some (Ok t) ->
  two_branches t = true /\
  (forall a name ch, t = Node a name ch ->
     exists y n, ch = [("Yea", y); ("Nay", n)] /\
                 two_branches y = true /\ two_branches n = true).
Proof.
  intros H. apply decision_tree_learning_two_branches in H.
  split; [exact H|]. intros a name ch ->. apply two_branches_keys in H. exact H.
Qed.

Lemma induced_nodes_two_children_witness :
  decision_tree_learning log2_series 0 2 (examples all_nay_dataset) [1] [] 1 =
    Some (Ok (Node 1 "vote1" [("Yea", Leaf "Democrats"); ("Nay", Leaf "Democrats")])) /\
  filter (affirmative 1) (examples all_nay_dataset) = [] /\
  two_branches (Node 1 "vote1" [("Yea", Leaf "Democrats"); ("Nay", Leaf "Democrats")])
    = true.
Proof.
  split; [vm_compute; reflexivity|]. split; [reflexivity|].
  apply (induced_nodes_two_children log2_series 0 2 (examples all_nay_dataset)
           [1] [] 1).
  vm_compute. reflexivity.
Defined.

Lemma learn_decision_tree_two_branches (math_log2 : float -> float) (fuel : nat)
    (dataset : DataSet) (target_name : string) (feature_names : list string)
    (depth_limit : Z) (t : tree) :
  learn_decision_tree math_log2 fuel dataset target_name feature_names depth_limit
    = Some (Ok t) ->
  two_branches t = true.
Proof.
  unfold learn_decision_tree.
  destruct (index_str target_name (attributes dataset)) as [target|e]; [|discriminate].
  destruct (mapM _ feature_names) as [features|e]; [|discriminate].
  apply decision_tree_learning_two_branches.
Qed.

(** C9.  [entropy] raises [ZeroDivisionError] on the empty list and on no
    other; [information_gain] cannot raise it for a non-empty parent, its
    loop leaving empty children out; and since [decision_tree_learning]
    reaches [argmax] only with a non-empty example list, no run of
    [decision_tree_learning] or [learn_decision_tree] ends in a
    [ZeroDivisionError]. *)
Theorem induction_never_divides_by_zero (math_log2 : float -> float) :
  (forall target es,
      entropy math_log2 target es = Raise ZeroDivisionError <-> es = []) /\
  (forall target parent children,
      parent <> [] ->
      information_gain math_log2 target parent children <> Raise ZeroDivisionError) /\
  (forall target attrs es,
      es <> [] -> argmax math_log2 target attrs es <> Raise ZeroDivisionError) /\
  (forall target fuel es attrs parent depth,
      decision_tree_learning math_log2 target fuel es attrs parent depth
      <> Some (Raise ZeroDivisionError)) /\
  (forall fuel dataset target_name feature_names depth_limit,
      learn_decision_tree math_log2 fuel dataset target_name feature_names depth_limit
      <> Some (Raise ZeroDivisionError)).
Proof.
  split; [intros; apply entropy_ZeroDivisionError|].
  split; [|split; [|split]].
  - intros target parent children Hne H.
    apply information_gain_Raise in H. destruct H as [[_ H] | H];
      [contradiction | discriminate].
  - intros target attrs es Hne H.
    destruct (argmax_cases math_log2 target attrs es)
      as [[A [HA _]] | [H' | [[H' _] | [_ H']]]]; congruence.
  - intros target fuel es attrs parent depth H.
    apply decision_tree_learning_Raise in H. discriminate.
  - intros fuel dataset target_name feature_names depth_limit.
    unfold learn_decision_tree.
    destruct (index_str target_name (attributes dataset)) as [target|e] eqn:Ht.
    + destruct (mapM _ feature_names) as [features|e] eqn:Hf.
      * intros H. apply decision_tree_learning_Raise in H. discriminate.
      * apply mapM_Raise in Hf. destruct Hf as [name [_ Hname]].
        intros H. injection H as ->. clear - Hname.
        induction (attributes dataset) as [|y ys IH]; simpl in Hname; [discriminate|].
        destruct (String.eqb y name); [discriminate|].
        destruct (index_str name ys); [discriminate | auto].
    + intros H. injection H as ->. clear - Ht.
      induction (attributes dataset) as [|y ys IH]; simpl in Ht; [discriminate|].
      destruct (String.eqb y target_name); [discriminate|].
      destruct (index_str target_name ys); [discriminate | auto].
Qed.

(** C10.  [decision_tree_learning] terminates on every input: with more
    fuel than there are candidate attributes it returns, and the outcome
    does not depend on how much more.  This holds for every depth, zero and
    negative ones included, and every example list, because a recursive
    call is made with the chosen attribute removed from the candidates (one
    element fewer) and with the depth decreased by one. *)
Theorem decision_tree_learning_terminates (math_log2 : float -> float)
    (target : nat) (fuel : nat) (es : list example) (attrs : list nat)
    (parent : list example) (depth : Z) :
  List.length attrs < fuel ->
  (exists r,
      decision_tree_learning math_log2 target fuel es attrs parent depth = Some r /\
      forall fuel', List.length attrs < fuel' ->
        decision_tree_learning math_log2 target fuel' es attrs parent depth = Some r) /\
  ((exists r, forall fuel',
        decision_tree_learning math_log2 target (S fuel') es attrs parent depth = Some r) \/
   (exists A temp_attrs,
       argmax math_log2 target attrs es = Ok A /\
       list_remove A attrs = Ok temp_attrs /\
       List.length attrs = S (List.length temp_attrs) /\
       forall fuel',
         decision_tree_learning math_log2 target (S fuel') es attrs parent depth =
         node_of_branches A ("vote" ++ str_of_nat A)
           (decision_tree_learning math_log2 target fuel'
              (filter (affirmative A) es) temp_attrs es (depth - 1)%Z)
           (decision_tree_learning math_log2 target fuel'
              (filter (fun e => negb (affirmative A e)) es) temp_attrs es
              (depth - 1)%Z))).
Proof.
  intros Hfuel. split.
  - destruct (decision_tree_learning_returns math_log2 target fuel es attrs parent
                depth Hfuel) as [r Hr].
    exists r. split; [exact Hr|]. intros fuel' Hfuel'. rewrite <- Hr.
    apply decision_tree_learning_fuel; assumption.
  - destruct (decision_tree_learning_cases math_log2 target es attrs parent depth)
      as [[r [Hr _]] | [A [temp_attrs [Hd [Hes [Hsame [Hattrs [HA [Htemp Hlen]]]]]]]]].
    + left. exists r. exact Hr.
    + right. exists A, temp_attrs. repeat split; try assumption.
      intros fuel'. apply decision_tree_learning_step; assumption.
Qed.

Lemma decision_tree_learning_terminates_witness :
  List.length [1; 2] < 3 /\
  decision_tree_learning log2_series 0 3 (examples two_votes_dataset) [1; 2] [] (-1) =
  Some (Ok (Node 1 "vote1"
              [("Yea", Node 2 "vote2" [("Yea", Leaf "Republicans");
                                       ("Nay", Leaf "Democrats")]);
               ("Nay", Leaf "Democrats")])).
Proof.
  split; [simpl; lia|].
  destruct (decision_tree_learning_terminates log2_series 0 3
              (examples two_votes_dataset) [1; 2] [] (-1))
    as [[r [Hr _]] _]; [simpl; lia|].
  rewrite Hr. revert Hr. vm_compute. intros Hr. symmetry. exact Hr.
Defined.

Lemma learn_decision_tree_returns (math_log2 : float -> float) (fuel : nat)
    (dataset : DataSet) (target_name : string) (feature_names : list string)
    (depth_limit : Z) :
  List.length feature_names < fuel ->
  exists r,
    learn_decision_tree math_log2 fuel dataset target_name feature_names depth_limit
    = Some r.
Proof.
  intros Hfuel. unfold learn_decision_tree.
  destruct (index_str target_name (attributes dataset)) as [target|e]; [|eauto].
  destruct (mapM _ feature_names) as [features|e] eqn:Hf; [|eauto].
  apply decision_tree_learning_returns.
  apply mapM_length in Hf. lia.
Qed.

(** ** The scenario with one feature *)

(** With the two value lists paired by position, as they are written, the
    data is not correlated with the class: whatever the logarithm, at depth
    limit 1 the tree learned from [votex_dataset] is not the node with
    Leaf("Republicans") under "Yea" and Leaf("Democrats") under "Nay". *)
Lemma votex_scenario_counterexample :
  ~ (exists math_log2 name,
        learn_decision_tree math_log2 2 votex_dataset "class" ["voteX"] 1 =
        Some (Ok (Node 1 name [("Yea", Leaf "Republicans"); ("Nay", Leaf "Democrats")]))).
Proof.
  intros [math_log2 [name H]]. vm_compute in H. discriminate H.
Qed.

(** What the pairing by position gives instead: with [voteX] valued Yea,
    Yea, Nay, Nay against the classes republican, democrat, republican,
    democrat, each group of the split holds one republican and one
    democrat, the two ties go to "Democrats", and both children are
    Leaf("Democrats"). *)
Theorem votex_scenario (math_log2 : float -> float) (fuel : nat) (depth : Z) :
  (1 <= depth)%Z -> 1 < fuel ->
  learn_decision_tree math_log2 fuel votex_dataset "class" ["voteX"] depth =
    Some (Ok (Node 1 "vote1" [("Yea", Leaf "Democrats"); ("Nay", Leaf "Democrats")])) /\
  learn_decision_tree math_log2 fuel votex_dataset_swapped "class" ["voteX"] depth =
    Some (Ok (Node 0 "vote0" [("Yea", Leaf "Democrats"); ("Nay", Leaf "Democrats")])).
Proof.
  intros Hdepth Hfuel.
  destruct fuel as [|[|fuel]]; [lia | lia |].
  assert (Hd : depth <> 0%Z) by lia.
  split; unfold learn_decision_tree; cbn [index_str mapM bind String.eqb Ascii.eqb
    Bool.eqb attributes examples votex_dataset votex_dataset_swapped].
  - rewrite (decision_tree_learning_step math_log2 0 (S fuel) _ [1] [] depth 1 []);
      try assumption; try discriminate; try reflexivity.
    rewrite !decision_tree_learning_no_attrs by (try discriminate; reflexivity).
    reflexivity.
  - rewrite (decision_tree_learning_step math_log2 1 (S fuel) _ [0] [] depth 0 []);
      try assumption; try discriminate; try reflexivity.
    rewrite !decision_tree_learning_no_attrs by (try discriminate; reflexivity).
    reflexivity.
Qed.

Lemma votex_scenario_witness :
  (1 <= 5)%Z /\ 1 < 2 /\
  learn_decision_tree log2_series 2 votex_dataset "class" ["voteX"] 5 =
    Some (Ok (Node 1 "vote1" [("Yea", Leaf "Democrats"); ("Nay", Leaf "Democrats")])).
Proof.
  split; [lia|]. split; [lia|].
  apply (votex_scenario log2_series 2 5); lia.
Defined.

(** C3, amended.  On the four examples with [voteX] valued Yea, Yea, Nay,
    Nay and classes republican, republican, democrat, democrat (the
    perfectly correlated pairing), induction with a depth limit of at least
    1 on the feature list ["voteX"] returns a node testing the column of
    [voteX] whose "Yea" child is Leaf("Republicans") and whose "Nay" child
    is Leaf("Democrats").  The column order of the data set does not
    matter. *)
Theorem votex_correlated_scenario (math_log2 : float -> float) (fuel : nat)
    (depth : Z) :
  (1 <= depth)%Z -> 1 < fuel ->
  learn_decision_tree math_log2 fuel votex_correlated_dataset "class" ["voteX"] depth =
    Some (Ok (Node 1 "vote1" [("Yea", Leaf "Republicans"); ("Nay", Leaf "Democrats")])) /\
  learn_decision_tree math_log2 fuel votex_correlated_dataset_swapped "class" ["voteX"]
    depth =
    Some (Ok (Node 0 "vote0" [("Yea", Leaf "Republicans"); ("Nay", Leaf "Democrats")])).
Proof.
  intros Hdepth Hfuel.
  destruct fuel as [|[|fuel]]; [lia | lia |].
  assert (Hd : depth <> 0%Z) by lia.
  split; unfold learn_decision_tree; cbn [index_str mapM bind String.eqb Ascii.eqb
    Bool.eqb attributes examples votex_correlated_dataset
    votex_correlated_dataset_swapped].
  - rewrite (decision_tree_learning_step math_log2 0 (S fuel) _ [1] [] depth 1 []);
      try assumption; try discriminate; try reflexivity.
    cbn [decision_tree_learning]. destruct (depth - 1 =? 0)%Z; reflexivity.
  - rewrite (decision_tree_learning_step math_log2 1 (S fuel) _ [0] [] depth 0 []);
      try assumption; try discriminate; try reflexivity.
    cbn [decision_tree_learning]. destruct (depth - 1 =? 0)%Z; reflexivity.
Qed.

Lemma votex_correlated_scenario_witness :
  (1 <= 5)%Z /\ 1 < 2 /\
  learn_decision_tree log2_series 2 votex_correlated_dataset "class" ["voteX"] 5 =
    Some (Ok (Node 1 "vote1" [("Yea", Leaf "Republicans"); ("Nay", Leaf "Democrats")])).
Proof.
  split; [lia|]. split; [lia|].
  apply (votex_correlated_scenario log2_series 2 5); lia.
Defined.

(** ** Classifying the training examples *)

(** C1 fails on [present_dataset].  The learned tree sends the republican
    who voted "Present" to the "Yea" group, whose leaf predicts
    "Republicans", yet classifying that same row raises [KeyError]: the
    node has no child stored under "Present". *)
Theorem present_vote_not_classified (math_log2 : float -> float) :
  learn_decision_tree math_log2 2 present_dataset "class" ["vote1"] 1 =
    Some (Ok (Node 1 "vote1" [("Yea", Leaf "Republicans"); ("Nay", Leaf "Democrats")])) /\
  In ["republican"; "Present"] (examples present_dataset) /\
  route (Node 1 "vote1" [("Yea", Leaf "Republicans"); ("Nay", Leaf "Democrats")])
    ["republican"; "Present"] = Some "Republicans" /\
  classify (Node 1 "vote1" [("Yea", Leaf "Republicans"); ("Nay", Leaf "Democrats")])
    ["republican"; "Present"] = Raise KeyError.
Proof.
  split; [vm_compute; reflexivity|].
  split; [left; reflexivity|].
  split; reflexivity.
Qed.

Lemma list_remove_incl (x : nat) (xs r : list nat) :
  list_remove x xs = Ok r -> forall a, In a r -> In a xs.
Proof.
  revert r. induction xs as [|y ys IH]; simpl; intros r H a Ha; [discriminate|].
  destruct (Nat.eqb y x); [injection H as <-; auto|].
  apply bind_Ok_inv in H. destruct H as [r' [Hr' H]]. injection H as <-.
  destruct Ha as [->|Ha]; [auto | right; eapply IH; eauto].
Qed.

(** At a node with the two branches "Yea" and "Nay", every example whose
    value in the tested column is a third token ("Present", "Absent", ...)
    is refused with [KeyError], wherever [split] would have sent it. *)
Lemma classify_third_value (a : nat) (name : string) (ch : dict tree)
    (ex : example) (v : string) :
  two_branches (Node a name ch) = true ->
  nth_error ex a = Some v -> v <> "Yea" -> v <> "Nay" ->
  classify (Node a name ch) ex = Raise KeyError.
Proof.
  intros Htwo Hv Hyea Hnay. apply two_branches_keys in Htwo.
  destruct Htwo as [y [n [-> _]]].
  rewrite classify_Node. unfold getitem. rewrite Hv. cbn [bind dict_get].
  assert (H1 : String.eqb "Yea" v = false)
    by (apply String.eqb_neq; congruence).
  assert (H2 : String.eqb "Nay" v = false)
    by (apply String.eqb_neq; congruence).
  rewrite H1, H2. reflexivity.
Qed.

(** What does hold: an example whose values in the candidate columns are all
    "Yea" or "Nay" is classified, and as the class of the leaf that the
    splits send it to. *)
Lemma classify_yea_nay_follows_route (math_log2 : float -> float) (target : nat)
    (fuel : nat) (es : list example) (attrs : list nat) (parent : list example)
    (depth : Z) (t : tree) (ex : example) :
  decision_tree_learning math_log2 target fuel es attrs parent depth = Some (Ok t) ->
  (forall a, In a attrs ->
             nth_error ex a = Some "Yea" \/ nth_error ex a = Some "Nay") ->
  exists c, classify t ex = Ok c /\ route t ex = Some c.
Proof.
  revert es attrs parent depth t.
  induction fuel as [|fuel IH]; intros es attrs parent depth t H Hex; [discriminate|].
  destruct (decision_tree_learning_cases math_log2 target es attrs parent depth)
    as [[r [Hr Hwhat]] | [A [temp_attrs [Hd [Hes [Hsame [Hattrs [HA [Htemp Hlen]]]]]]]]].
  - rewrite Hr in H. injection H as ->.
    destruct Hwhat as [[c Hc] | Hc]; [|discriminate].
    injection Hc as ->. exists c. split; reflexivity.
  - rewrite (decision_tree_learning_step _ _ _ es attrs parent depth A temp_attrs) in H
      by assumption.
    unfold node_of_branches in H.
    destruct (decision_tree_learning math_log2 target fuel
                (filter (affirmative A) es) temp_attrs es (depth - 1)%Z)
      as [[y|ey]|] eqn:Hy; try discriminate.
    destruct (decision_tree_learning math_log2 target fuel
                (filter (fun e => negb (affirmative A e)) es) temp_attrs es (depth - 1)%Z)
      as [[n|en]|] eqn:Hn; try discriminate.
    injection H as <-.
    assert (Hin : In A attrs).
    { destruct (argmax_cases math_log2 target attrs es)
        as [[A' [HA' [Hin _]]] | [H' | [[H' _] | [H' _]]]]; congruence. }
    assert (Hsub : forall a, In a temp_attrs ->
                     nth_error ex a = Some "Yea" \/ nth_error ex a = Some "Nay").
    { intros a Ha. apply Hex. eapply list_remove_incl; eauto. }
    rewrite classify_Node. unfold getitem. cbn [route]. unfold affirmative.
    destruct (Hex A Hin) as [Hv|Hv]; rewrite Hv; cbn.
    + eapply IH; eauto.
    + eapply IH; eauto.
Qed.

(** ** Information gain in binary64 *)

Lemma entropy_value (math_log2 : float -> float) (target : nat) (es : list example) :
  es <> [] -> forallb (has_column target) es = true ->
  entropy math_log2 target es = Ok (entropy_of math_log2 target es).
Proof.
  intros Hne Hcols. unfold entropy. rewrite count_loop_spec, Hcols.
  cbn [bind Nat.add]. rewrite count_total.
  rewrite !truediv_Ok by (destruct es; [contradiction | discriminate]).
  cbn [bind]. unfold entropy_of, binary_entropy. rewrite count_total. reflexivity.
Qed.

Lemma children_loop_value (math_log2 : float -> float) (target : nat)
    (parent : list example) (children : list (list example)) (acc : float) :
  parent <> [] ->
  forallb (forallb (has_column target)) children = true ->
  children_loop math_log2 target parent children acc =
  Ok (fold_left
        (fun acc child =>
           (acc + float_of_nat (List.length child) / float_of_nat (List.length parent)
                  * entropy_of math_log2 target child)%float)
        (filter nonempty children) acc).
Proof.
  intros Hne. revert acc.
  induction children as [|child rest IH]; intros acc Hcols; [reflexivity|].
  cbn [forallb] in Hcols. apply andb_prop in Hcols. destruct Hcols as [Hc Hrest].
  cbn [children_loop filter]. unfold nonempty at 1.
  destruct (Nat.eqb (List.length child) 0) eqn:Hlen; cbn [negb].
  - apply IH. exact Hrest.
  - rewrite truediv_Ok by (destruct parent; [contradiction | discriminate]).
    cbn [bind]. rewrite entropy_value;
      [| intros ->; discriminate | exact Hc].
    cbn [bind fold_left]. apply IH. exact Hrest.
Qed.

(** X16.  The value of [information_gain]: the entropy of the parent minus the
    weighted entropies of the non-empty children; empty children are left
    out of the sum. *)
Lemma information_gain_value (math_log2 : float -> float) (target : nat)
    (parent : list example) (children : list (list example)) :
  parent <> [] ->
  forallb (has_column target) parent = true ->
  forallb (forallb (has_column target)) children = true ->
  information_gain math_log2 target parent children =
  Ok (entropy_of math_log2 target parent
      - weighted_entropies math_log2 target parent (filter nonempty children))%float.
Proof.
  intros Hne Hp Hc. unfold information_gain.
  rewrite children_loop_value by assumption. cbn [bind].
  rewrite entropy_value by assumption. reflexivity.
Qed.

(** With a binary64 logarithm the computed gain of a split can come out
    below zero: here parent and children have the same class proportions,
    the exact gain is zero and rounding leaves [-2^-53]. *)
Example information_gain_thirds :
  split 1 thirds_examples =
    Ok [filter (affirmative 1) thirds_examples;
        filter (fun e => negb (affirmative 1 e)) thirds_examples] /\
  information_gain log2_series 0 thirds_examples
    [filter (affirmative 1) thirds_examples;
     filter (fun e => negb (affirmative 1 e)) thirds_examples]
  = Ok (-0x1p-53)%float.
Proof. split; vm_compute; reflexivity. Qed.

(** ** Reasoning along the runs of [decision_tree_learning] *)

Section RunInduction.

Variable math_log2 : float -> float.
Variable target : nat.

(** The body of [decision_tree_learning], with its loop carried out. *)
Lemma decision_tree_learning_unfold (fuel : nat) (es : list example)
    (attrs : list nat) (parent : list example) (depth : Z) :
  decision_tree_learning math_log2 target (S fuel) es attrs parent depth =
  if (depth =? 0)%Z then Some (plurality_value target es)
  else if Nat.eqb (List.length es) 0 then Some (plurality_value target parent)
  else
    match same_classification target es with
    | Raise e => Some (Raise e)
    | Ok (Some leaf) => Some (Ok leaf)
    | Ok None =>
        if Nat.eqb (List.length attrs) 0 then Some (plurality_value target es)
        else
          match argmax math_log2 target attrs es with
          | Raise e => Some (Raise e)
          | Ok A =>
              match list_remove A attrs with
              | Raise e => Some (Raise e)
              | Ok temp_attrs =>
                  node_of_branches A ("vote" ++ str_of_nat A)
                    (decision_tree_learning math_log2 target fuel
                       (filter (affirmative A) es) temp_attrs es (depth - 1)%Z)
                    (decision_tree_learning math_log2 target fuel
                       (filter (fun e => negb (affirmative A e)) es) temp_attrs es
                       (depth - 1)%Z)
              end
          end
    end.
Proof.
  cbn [decision_tree_learning].
  destruct (depth =? 0)%Z; [reflexivity|].
  destruct (Nat.eqb (List.length es) 0); [reflexivity|].
  destruct (same_classification target es) as [[leaf|]|e]; try reflexivity.
  destruct (Nat.eqb (List.length attrs) 0); [reflexivity|].
  destruct (argmax_cases math_log2 target attrs es)
    as [[A [HA [_ Hcols]]] | [H | [[H _] | [H _]]]]; rewrite ?H; try reflexivity.
  rewrite HA, for_loop_two, Hcols. reflexivity.
Qed.

Lemma plurality_value_class (es : list example) (t : tree) :
  plurality_value target es = Ok t ->
  t = Leaf "Democrats" \/ t = Leaf "Republicans".
Proof.
  rewrite plurality_value_spec.
  destruct (forallb (has_column target) es); [|discriminate].
  destruct (Nat.leb _ _); intros H; injection H as <-; auto.
Qed.

(** Induction over the successful runs: a property of the arguments and
    the returned tree holds for every run once it holds for the four ways
    of returning a leaf and is passed on from the two recursive calls to
    the node built from them. *)
Lemma decision_tree_learning_run_ind
    (P : list example -> list nat -> list example -> Z -> tree -> Prop) :
  (forall es attrs parent t,
      plurality_value target es = Ok t -> P es attrs parent 0%Z t) ->
  (forall attrs parent depth t,
      depth <> 0%Z -> plurality_value target parent = Ok t ->
      P [] attrs parent depth t) ->
  (forall es attrs parent depth t,
      depth <> 0%Z -> es <> [] -> same_classification target es = Ok (Some t) ->
      P es attrs parent depth t) ->
  (forall es parent depth t,
      depth <> 0%Z -> es <> [] -> same_classification target es = Ok None ->
      plurality_value target es = Ok t -> P es [] parent depth t) ->
  (forall es attrs parent depth A temp_attrs y n,
      depth <> 0%Z -> es <> [] -> same_classification target es = Ok None ->
      argmax math_log2 target attrs es = Ok A -> In A attrs ->
      list_remove A attrs = Ok temp_attrs ->
      P (filter (affirmative A) es) temp_attrs es (depth - 1)%Z y ->
      P (filter (fun e => negb (affirmative A e)) es) temp_attrs es (depth - 1)%Z n ->
      P es attrs parent depth
        (Node A ("vote" ++ str_of_nat A) [("Yea", y); ("Nay", n)])) ->
  forall fuel es attrs parent depth t,
    decision_tree_learning math_log2 target fuel es attrs parent depth = Some (Ok t) ->
    P es attrs parent depth t.
Proof.
  intros Hzero Hempty Hsame Hnoattr Hnode.
  induction fuel as [|fuel IH]; intros es attrs parent depth t H; [discriminate|].
  rewrite decision_tree_learning_unfold in H.
  destruct (depth =? 0)%Z eqn:Hd.
  { apply Z.eqb_eq in Hd. subst depth. injection H as H. auto. }
  apply Z.eqb_neq in Hd.
  destruct es as [|e es'].
  { injection H as H. auto. }
  cbn [List.length Nat.eqb] in H.
  destruct (same_classification target (e :: es')) as [[leaf|]|err] eqn:Hs;
    [| |discriminate].
  { injection H as <-. apply Hsame; [assumption | discriminate | assumption]. }
  destruct attrs as [|a attrs'].
  { injection H as H. apply Hnoattr; [assumption | discriminate | assumption | assumption]. }
  cbn [List.length Nat.eqb] in H.
  destruct (argmax math_log2 target (a :: attrs') (e :: es')) as [A|err] eqn:HA;
    [|discriminate].
  destruct (list_remove A (a :: attrs')) as [temp_attrs|err] eqn:Htemp;
    [|discriminate].
  unfold node_of_branches in H.
  destruct (decision_tree_learning math_log2 target fuel
              (filter (affirmative A) (e :: es')) temp_attrs (e :: es') (depth - 1)%Z)
    as [[y|ey]|] eqn:Hy; try discriminate.
  destruct (decision_tree_learning math_log2 target fuel
              (filter (fun x => negb (affirmative A x)) (e :: es')) temp_attrs
              (e :: es') (depth - 1)%Z)
    as [[n|en]|] eqn:Hn; try discriminate.
  injection H as <-.
  apply Hnode with (temp_attrs := temp_attrs); try assumption; try discriminate.
  - destruct (argmax_cases math_log2 target (a :: attrs') (e :: es'))
      as [[A' [HA' [Hin _]]] | [H' | [[H' _] | [H' _]]]]; congruence.
  - apply IH. exact Hy.
  - apply IH. exact Hn.
Qed.

End RunInduction.

(** ** More on [split] and the leaf-building helpers *)

Lemma filter_partition_Permutation {A : Type} (f : A -> bool) (l : list A) :
  Permutation (filter f l ++ filter (fun x => negb (f x)) l) l.
Proof.
  induction l as [|x l IH]; simpl; [constructor|].
  destruct (f x); simpl.
  - constructor. exact IH.
  - apply Permutation_sym. apply Permutation_cons_app.
    apply Permutation_sym. exact IH.
Qed.

Lemma forallb_false_exists {A : Type} (f : A -> bool) (l : list A) :
  forallb f l = false <-> exists x, In x l /\ f x = false.
Proof.
  induction l as [|x l IH]; simpl.
  - split; [discriminate | intros [x [[] _]]].
  - destruct (f x) eqn:Hx; simpl.
    + rewrite IH. split; intros [y [Hy Hfy]]; [eauto|].
      destruct Hy as [->|Hy]; [congruence | eauto].
    + split; [eauto | reflexivity].
Qed.

Lemma filter_length_zero {A : Type} (f : A -> bool) (l : list A) :
  List.length (filter f l) = 0 -> forall x, In x l -> f x = false.
Proof.
  induction l as [|y l IH]; simpl; intros H x Hx; [contradiction|].
  destruct (f y) eqn:Hy; [discriminate|].
  destruct Hx as [<-|Hx]; [exact Hy | auto].
Qed.

Lemma filter_length_all {A : Type} (f : A -> bool) (l : list A) :
  (forall x, In x l -> f x = true) ->
  List.length (filter f l) = List.length l /\
  List.length (filter (fun x => negb (f x)) l) = 0.
Proof.
  induction l as [|y l IH]; simpl; intros H; [auto|].
  rewrite (H y) by auto. simpl. destruct IH as [IH1 IH2]; [auto|].
  split; [f_equal; exact IH1 | exact IH2].
Qed.

(** X1.  [split] neither loses nor duplicates a row: a successful call returns
    exactly two groups which together are a rearrangement of the input, the
    first holding affirmative rows only and the second none. *)
Theorem split_is_partition (a : nat) (es : list example)
    (parts : list (list example)) :
  split a es = Ok parts ->
  exists ys ns,
    parts = [ys; ns] /\
    Permutation (ys ++ ns) es /\
    List.length ys + List.length ns = List.length es /\
    (forall e, In e ys -> affirmative a e = true) /\
    (forall e, In e ns -> affirmative a e = false).
Proof.
  rewrite split_spec. destruct (forallb (has_column a) es); [|discriminate].
  intros H. injection H as <-.
  exists (filter (affirmative a) es), (filter (fun e => negb (affirmative a e)) es).
  split; [reflexivity|].
  pose proof (filter_partition_Permutation (affirmative a) es) as Hperm.
  split; [exact Hperm|]. split.
  - rewrite <- (Permutation_length Hperm), length_app. reflexivity.
  - split; intros e He; apply filter_In in He; destruct He as [_ He];
      [exact He | apply negb_true_iff in He; exact He].
Qed.

Lemma split_is_partition_witness :
  split 0 four_values = Ok [[["Yea"]; ["Present"]]; [["Nay"]; ["Absent"]]] /\
  exists ys ns,
    [[["Yea"]; ["Present"]]; [["Nay"]; ["Absent"]]] = [ys; ns] /\
    Permutation (ys ++ ns) four_values /\
    List.length ys + List.length ns = List.length four_values /\
    (forall e, In e ys -> affirmative 0 e = true) /\
    (forall e, In e ns -> affirmative 0 e = false).
Proof.
  split; [reflexivity|].
  apply (split_is_partition 0 four_values). reflexivity.
Defined.

(** X2.  [split] fails exactly when some row is too short to have the column,
    and then with [IndexError]; the rows before the short one do not
    matter. *)
Theorem split_fails_iff (a : nat) (es : list example) :
  ((exists e, split a es = Raise e) <->
   (exists row, In row es /\ List.length row <= a)) /\
  (forall e, split a es = Raise e -> e = IndexError).
Proof.
  rewrite split_spec.
  destruct (forallb (has_column a) es) eqn:Hcols; split.
  - split; [intros [e H]; discriminate|].
    intros [row [Hin Hlen]]. rewrite forallb_forall in Hcols.
    apply Hcols in Hin. unfold has_column in Hin. apply Nat.ltb_lt in Hin. lia.
  - discriminate.
  - split; [|eauto]. intros _. apply forallb_false_exists in Hcols.
    destruct Hcols as [row [Hin Hrow]]. exists row. split; [exact Hin|].
    unfold has_column in Hrow. apply Nat.ltb_ge in Hrow. exact Hrow.
  - intros e H. congruence.
Qed.

(** X3.  A leaf returned by [same_classification] carries the binarized class
    of every example, and it is the leaf [plurality_value] returns for the
    same examples. *)
Theorem same_classification_is_plurality (target : nat) (es : list example)
    (t : tree) :
  same_classification target es = Ok (Some t) ->
  plurality_value target es = Ok t /\
  exists c, t = Leaf c /\ forall e, In e es -> class_label target e = c.
Proof.
  rewrite same_classification_spec, plurality_value_spec.
  destruct (forallb (has_column target) es); [|discriminate].
  pose proof (count_total target es) as Htotal.
  destruct (Nat.eqb (republicans_in target es) 0) eqn:Hr.
  - apply Nat.eqb_eq in Hr. intros H. injection H as <-.
    rewrite Hr. cbn [Nat.leb]. split; [reflexivity|].
    exists "Democrats". split; [reflexivity|]. intros e He.
    unfold class_label.
    rewrite (filter_length_zero (is_republican target) es Hr e He). reflexivity.
  - apply Nat.eqb_neq in Hr.
    destruct (Nat.eqb (democrats_in target es) 0) eqn:Hd; [|discriminate].
    apply Nat.eqb_eq in Hd. intros H. injection H as <-.
    rewrite Hd. destruct (republicans_in target es) as [|r] eqn:Hreps;
      [contradiction|]. cbn [Nat.leb]. split; [reflexivity|].
    exists "Republicans". split; [reflexivity|]. intros e He.
    unfold class_label.
    pose proof (filter_length_zero _ es Hd e He) as Hneg. cbn beta in Hneg.
    apply negb_false_iff in Hneg. rewrite Hneg. reflexivity.
Qed.

Lemma same_classification_is_plurality_witness :
  same_classification 0 [["Republican"; "Nay"]; ["REPUBLICAN"; "Yea"]]
    = Ok (Some (Leaf "Republicans")) /\
  plurality_value 0 [["Republican"; "Nay"]; ["REPUBLICAN"; "Yea"]]
    = Ok (Leaf "Republicans").
Proof.
  split; [reflexivity|].
  apply (same_classification_is_plurality 0
           [["Republican"; "Nay"]; ["REPUBLICAN"; "Yea"]]).
  reflexivity.
Defined.

(** ** Shape of the learned tree *)

Lemma same_classification_class (target : nat) (es : list example) (t : tree) :
  same_classification target es = Ok (Some t) ->
  t = Leaf "Democrats" \/ t = Leaf "Republicans".
Proof.
  rewrite same_classification_spec.
  destruct (forallb (has_column target) es); [|discriminate].
  destruct (Nat.eqb (republicans_in target es) 0);
    [intros H; injection H as <-; auto|].
  destruct (Nat.eqb (democrats_in target es) 0); intros H;
    [injection H as <-; auto | discriminate].
Qed.

(** X4.  When all examples are of one binarized class, and there is at least one
    example, the answer is the leaf of that class: for every depth (zero
    and negative ones included), every candidate list and every parent
    list, and without any split being tried. *)
Theorem one_class_gives_leaf (math_log2 : float -> float) (target : nat)
    (fuel : nat) (es : list example) (attrs : list nat) (parent : list example)
    (depth : Z) :
  es <> [] -> forallb (has_column target) es = true ->
  ((forall e, In e es -> is_republican target e = true) ->
   decision_tree_learning math_log2 target (S fuel) es attrs parent depth
   = Some (Ok (Leaf "Republicans"))) /\
  ((forall e, In e es -> is_republican target e = false) ->
   decision_tree_learning math_log2 target (S fuel) es attrs parent depth
   = Some (Ok (Leaf "Democrats"))).
Proof.
  intros Hne Hcols.
  assert (Hlen : List.length es <> 0) by (destruct es; [contradiction | discriminate]).
  rewrite decision_tree_learning_unfold, plurality_value_spec,
    same_classification_spec, Hcols.
  apply Nat.eqb_neq in Hlen. rewrite Hlen.
  apply Nat.eqb_neq in Hlen.
  split; intros Hall.
  - destruct (filter_length_all (is_republican target) es Hall) as [Hr Hd].
    unfold republicans_in, democrats_in. rewrite Hr, Hd.
    destruct (List.length es) as [|k]; [contradiction|]. cbn [Nat.leb Nat.eqb].
    destruct (depth =? 0)%Z; reflexivity.
  - assert (Hall' : forall e, In e es -> negb (is_republican target e) = true)
      by (intros e He; rewrite (Hall e He); reflexivity).
    destruct (filter_length_all (fun e => negb (is_republican target e)) es Hall')
      as [Hd Hr].
    assert (Hr' : republicans_in target es = 0).
    { unfold republicans_in. rewrite <- Hr. f_equal. apply filter_ext.
      intros e. rewrite negb_involutive. reflexivity. }
    unfold democrats_in. rewrite Hr'. cbn [Nat.leb Nat.eqb].
    destruct (depth =? 0)%Z; reflexivity.
Qed.

Lemma one_class_gives_leaf_witness :
  [["Republican"; "Nay"]; ["REPUBLICAN"; "Yea"]] <> [] /\
  forallb (has_column 0) [["Republican"; "Nay"]; ["REPUBLICAN"; "Yea"]] = true /\
  decision_tree_learning log2_series 0 1
    [["Republican"; "Nay"]; ["REPUBLICAN"; "Yea"]] [1] [] 7
  = Some (Ok (Leaf "Republicans")).
Proof.
  split; [discriminate|]. split; [reflexivity|].
  apply (one_class_gives_leaf log2_series 0 0
           [["Republican"; "Nay"]; ["REPUBLICAN"; "Yea"]] [1] [] 7);
    [discriminate | reflexivity |].
  intros e [<-|[<-|[]]]; reflexivity.
Defined.

(** X5.  Without candidate attributes nothing is split: whatever is returned is
    a leaf. *)
Theorem no_attributes_gives_leaf (math_log2 : float -> float) (target : nat)
    (fuel : nat) (es parent : list example) (depth : Z) (t : tree) :
  decision_tree_learning math_log2 target fuel es [] parent depth = Some (Ok t) ->
  exists c, t = Leaf c /\ (c = "Democrats" \/ c = "Republicans").
Proof.
  destruct fuel as [|fuel]; [discriminate|].
  rewrite decision_tree_learning_unfold. cbn [List.length Nat.eqb].
  assert (Hpv : forall xs, Some (plurality_value target xs) = Some (Ok t) ->
                exists c, t = Leaf c /\ (c = "Democrats" \/ c = "Republicans")).
  { intros xs H. injection H as H. apply plurality_value_class in H.
    destruct H as [-> | ->]; eauto. }
  destruct (depth =? 0)%Z; [apply Hpv|].
  destruct (Nat.eqb (List.length es) 0); [apply Hpv|].
  destruct (same_classification target es) as [[leaf|]|e] eqn:Hs;
    [| apply Hpv | discriminate].
  intros H. injection H as ->.
  apply same_classification_class in Hs. destruct Hs as [-> | ->]; eauto.
Qed.

Lemma no_attributes_gives_leaf_witness :
  decision_tree_learning log2_series 0 1 (examples votex_dataset) [] [] 3
    = Some (Ok (Leaf "Democrats")) /\
  exists c, Leaf "Democrats" = Leaf c /\ (c = "Democrats" \/ c = "Republicans").
Proof.
  split; [reflexivity|].
  apply (no_attributes_gives_leaf log2_series 0 1 (examples votex_dataset) [] 3).
  reflexivity.
Defined.

(** X6.  The depth limit bounds the tree: with a depth limit [depth >= 0] no
    path of the returned tree makes more than [depth] tests, and whatever
    the depth limit no path makes more tests than there are candidate
    attributes. *)
Theorem height_bounded (math_log2 : float -> float) (target : nat) (fuel : nat)
    (es : list example) (attrs : list nat) (parent : list example) (depth : Z)
    (t : tree) :
  decision_tree_learning math_log2 target fuel es attrs parent depth = Some (Ok t) ->
  height t <= List.length attrs /\
  ((0 <= depth)%Z -> (Z.of_nat (height t) <= depth)%Z).
Proof.
  revert fuel es attrs parent depth t.
  apply (decision_tree_learning_run_ind math_log2 target
           (fun es attrs parent depth t =>
              height t <= List.length attrs /\
              ((0 <= depth)%Z -> (Z.of_nat (height t) <= depth)%Z))).
  - intros es attrs parent t H. apply plurality_value_class in H.
    destruct H as [-> | ->]; simpl; split; lia.
  - intros attrs parent depth t _ H. apply plurality_value_class in H.
    destruct H as [-> | ->]; simpl; split; lia.
  - intros es attrs parent depth t _ _ H. apply same_classification_class in H.
    destruct H as [-> | ->]; simpl; split; lia.
  - intros es parent depth t _ _ _ H. apply plurality_value_class in H.
    destruct H as [-> | ->]; simpl; split; lia.
  - intros es attrs parent depth A temp_attrs y n Hd _ _ _ _ Htemp [Hy1 Hy2] [Hn1 Hn2].
    apply list_remove_length in Htemp. cbn [height map snd list_max fold_right].
    split; [lia|]. intros Hdepth. lia.
Qed.

Lemma height_bounded_witness :
  decision_tree_learning log2_series 0 3 (examples two_votes_dataset) [1; 2] [] 1 =
    Some (Ok (Node 1 "vote1" [("Yea", Leaf "Democrats"); ("Nay", Leaf "Democrats")])) /\
  (Z.of_nat (height (Node 1 "vote1" [("Yea", Leaf "Democrats");
                                     ("Nay", Leaf "Democrats")])) <= 1)%Z.
Proof.
  split; [vm_compute; reflexivity|].
  apply (height_bounded log2_series 0 3 (examples two_votes_dataset) [1; 2] [] 1);
    [vm_compute; reflexivity | lia].
Defined.

Lemma list_remove_NoDup (x : nat) (xs r : list nat) :
  list_remove x xs = Ok r -> NoDup xs -> NoDup r /\ ~ In x r.
Proof.
  revert r. induction xs as [|y ys IH]; simpl; intros r H Hnd; [discriminate|].
  inversion Hnd as [|y' ys' Hy Hys]; subst.
  destruct (Nat.eqb y x) eqn:E.
  - apply Nat.eqb_eq in E. subst. injection H as <-. auto.
  - apply Nat.eqb_neq in E. apply bind_Ok_inv in H.
    destruct H as [r' [Hr' H]]. injection H as <-.
    destruct (IH r' Hr' Hys) as [Hnd' Hnot]. split.
    + constructor; [|exact Hnd']. intros Hin. apply Hy.
      eapply list_remove_incl; eauto.
    + intros [Hx|Hx]; [congruence | contradiction].
Qed.

Lemma existsb_eqb_false (a : nat) (l : list nat) :
  ~ In a l -> existsb (Nat.eqb a) l = false.
Proof.
  intros Hnot. destruct (existsb (Nat.eqb a) l) eqn:E; [|reflexivity].
  apply existsb_exists in E. destruct E as [x [Hx Hax]].
  apply Nat.eqb_eq in Hax. subst. contradiction.
Qed.

(** X7.  Every node of the returned tree tests one of the candidate columns and
    is named "vote" followed by the number of that column (not by the
    attribute's name in the header).  When the candidates are pairwise
    distinct, no column is tested twice on a path. *)
Theorem tests_come_from_candidates (math_log2 : float -> float) (target : nat)
    (fuel : nat) (es : list example) (attrs : list nat) (parent : list example)
    (depth : Z) (t : tree) :
  decision_tree_learning math_log2 target fuel es attrs parent depth = Some (Ok t) ->
  (forall a, In a (tests t) -> In a attrs) /\
  named_by_column t = true /\
  (NoDup attrs -> no_retest t = true).
Proof.
  revert fuel es attrs parent depth t.
  apply (decision_tree_learning_run_ind math_log2 target
           (fun es attrs parent depth t =>
              (forall a, In a (tests t) -> In a attrs) /\
              named_by_column t = true /\
              (NoDup attrs -> no_retest t = true))).
  - intros es attrs parent t H. apply plurality_value_class in H.
    destruct H as [-> | ->]; simpl; repeat split; tauto.
  - intros attrs parent depth t _ H. apply plurality_value_class in H.
    destruct H as [-> | ->]; simpl; repeat split; tauto.
  - intros es attrs parent depth t _ _ H. apply same_classification_class in H.
    destruct H as [-> | ->]; simpl; repeat split; tauto.
  - intros es parent depth t _ _ _ H. apply plurality_value_class in H.
    destruct H as [-> | ->]; simpl; repeat split; tauto.
  - intros es attrs parent depth A temp_attrs y n _ _ _ _ HA Htemp
      [Hy1 [Hy2 Hy3]] [Hn1 [Hn2 Hn3]].
    assert (Hsub : forall a, In a temp_attrs -> In a attrs)
      by (intros a; eapply list_remove_incl; eauto).
    split; [|split].
    + cbn [tests flat_map snd]. rewrite app_nil_r. intros a [<-|Ha]; [exact HA|].
      apply in_app_or in Ha. destruct Ha as [Ha|Ha]; auto.
    + cbn [named_by_column forallb snd]. rewrite String.eqb_refl, Hy2, Hn2.
      reflexivity.
    + intros Hnd. destruct (list_remove_NoDup _ _ _ Htemp Hnd) as [Hnd' Hnot].
      cbn [no_retest forallb snd].
      rewrite (existsb_eqb_false A (tests y)) by (intros H; apply Hnot; auto).
      rewrite (existsb_eqb_false A (tests n)) by (intros H; apply Hnot; auto).
      rewrite (Hy3 Hnd'), (Hn3 Hnd'). reflexivity.
Qed.

Lemma tests_come_from_candidates_witness :
  decision_tree_learning log2_series 0 3 (examples two_votes_dataset) [1; 2] [] (-1) =
  Some (Ok (Node 1 "vote1"
              [("Yea", Node 2 "vote2" [("Yea", Leaf "Republicans");
                                       ("Nay", Leaf "Democrats")]);
               ("Nay", Leaf "Democrats")])) /\
  no_retest (Node 1 "vote1"
              [("Yea", Node 2 "vote2" [("Yea", Leaf "Republicans");
                                       ("Nay", Leaf "Democrats")]);
               ("Nay", Leaf "Democrats")]) = true.
Proof.
  split; [vm_compute; reflexivity|].
  apply (tests_come_from_candidates log2_series 0 3 (examples two_votes_dataset)
           [1; 2] [] (-1)); [vm_compute; reflexivity|].
  repeat constructor; simpl; intuition discriminate.
Defined.

(** ** Using the learned tree *)

Lemma classify_Ok_leaf (t : tree) (ex : example) (c : string) :
  classify t ex = Ok c -> In c (leaves t).
Proof.
  induction t as [c'|a name ch IH] using tree_nested_ind; intros H.
  - injection H as <-. left. reflexivity.
  - rewrite classify_Node in H. apply bind_Ok_inv in H.
    destruct H as [v [_ H]].
    destruct (dict_get ch v) as [sub|] eqn:Hsub; [|discriminate].
    apply dict_get_In in Hsub. cbn [leaves]. apply in_flat_map.
    exists (v, sub). split; [exact Hsub|].
    rewrite Forall_forall in IH. apply (IH _ Hsub). exact H.
Qed.

(** X8.  The learned tree only ever predicts "Democrats" or "Republicans": these
    are the classes at all its leaves, hence the only values [classify]
    returns on it, whatever the labels in the target column were. *)
Theorem predictions_are_party_names (math_log2 : float -> float) (target : nat)
    (fuel : nat) (es : list example) (attrs : list nat) (parent : list example)
    (depth : Z) (t : tree) :
  decision_tree_learning math_log2 target fuel es attrs parent depth = Some (Ok t) ->
  (forall c, In c (leaves t) -> c = "Democrats" \/ c = "Republicans") /\
  (forall ex c, classify t ex = Ok c -> c = "Democrats" \/ c = "Republicans").
Proof.
  intros H.
  assert (Hleaves : forall c, In c (leaves t) -> c = "Democrats" \/ c = "Republicans").
  { revert fuel es attrs parent depth t H.
    apply (decision_tree_learning_run_ind math_log2 target
             (fun _ _ _ _ t =>
                forall c, In c (leaves t) -> c = "Democrats" \/ c = "Republicans")).
    - intros es attrs parent t H. apply plurality_value_class in H.
      destruct H as [-> | ->]; intros c [<-|[]]; auto.
    - intros attrs parent depth t _ H. apply plurality_value_class in H.
      destruct H as [-> | ->]; intros c [<-|[]]; auto.
    - intros es attrs parent depth t _ _ H. apply same_classification_class in H.
      destruct H as [-> | ->]; intros c [<-|[]]; auto.
    - intros es parent depth t _ _ _ H. apply plurality_value_class in H.
      destruct H as [-> | ->]; intros c [<-|[]]; auto.
    - intros es attrs parent depth A temp_attrs y n _ _ _ _ _ _ Hy Hn c Hc.
      cbn [leaves flat_map snd] in Hc. rewrite app_nil_r in Hc.
      apply in_app_or in Hc. destruct Hc as [Hc|Hc]; auto. }
  split; [exact Hleaves|].
  intros ex c Hc. apply Hleaves. eapply classify_Ok_leaf; eauto.
Qed.

Lemma predictions_are_party_names_witness :
  decision_tree_learning log2_series 0 2 (examples present_dataset) [1] [] 1 =
    Some (Ok (Node 1 "vote1" [("Yea", Leaf "Republicans"); ("Nay", Leaf "Democrats")])) /\
  (forall ex c,
      classify (Node 1 "vote1" [("Yea", Leaf "Republicans"); ("Nay", Leaf "Democrats")])
        ex = Ok c ->
      c = "Democrats" \/ c = "Republicans").
Proof.
  split; [vm_compute; reflexivity|].
  apply (predictions_are_party_names log2_series 0 2 (examples present_dataset)
           [1] [] 1).
  vm_compute. reflexivity.
Defined.

(** X9.  A learned tree whose root is a node refuses every example whose value
    in the root's column is neither "Yea" nor "Nay", with [KeyError]: also
    the value "Present", which [split] counts as affirmative, and also
    examples of the training set. *)
Theorem learned_node_refuses_other_values (math_log2 : float -> float)
    (target : nat) (fuel : nat) (es : list example) (attrs : list nat)
    (parent : list example) (depth : Z) (a : nat) (name : string) (ch : dict tree)
    (ex : example) (v : string) :
  decision_tree_learning math_log2 target fuel es attrs parent depth
    = Some (Ok (Node a name ch)) ->
  nth_error ex a = Some v -> v <> "Yea" -> v <> "Nay" ->
  classify (Node a name ch) ex = Raise KeyError /\
  (affirmative a ex = true <-> v = "Present").
Proof.
  intros H Hv Hyea Hnay. apply decision_tree_learning_two_branches in H.
  apply two_branches_keys in H. destruct H as [y [n [-> _]]].
  split.
  - rewrite classify_Node. unfold getitem. rewrite Hv. cbn [bind dict_get].
    assert (H1 : String.eqb "Yea" v = false) by (apply String.eqb_neq; congruence).
    assert (H2 : String.eqb "Nay" v = false) by (apply String.eqb_neq; congruence).
    rewrite H1, H2. reflexivity.
  - unfold affirmative. rewrite Hv.
    assert (H1 : String.eqb v "Yea" = false) by (apply String.eqb_neq; congruence).
    rewrite H1. cbn [orb]. apply String.eqb_eq.
Qed.

Lemma learned_node_refuses_other_values_witness :
  decision_tree_learning log2_series 0 2 (examples all_nay_dataset) [1] [] 1 =
    Some (Ok (Node 1 "vote1" [("Yea", Leaf "Democrats"); ("Nay", Leaf "Democrats")])) /\
  nth_error ["democrat"; "Absent"] 1 = Some "Absent" /\
  "Absent" <> "Yea" /\ "Absent" <> "Nay" /\
  classify (Node 1 "vote1" [("Yea", Leaf "Democrats"); ("Nay", Leaf "Democrats")])
    ["democrat"; "Absent"] = Raise KeyError.
Proof.
  split; [vm_compute; reflexivity|]. split; [reflexivity|].
  split; [discriminate|]. split; [discriminate|].
  apply (learned_node_refuses_other_values log2_series 0 2
           (examples all_nay_dataset) [1] [] 1 1 "vote1"
           [("Yea", Leaf "Democrats"); ("Nay", Leaf "Democrats")]
           ["democrat"; "Absent"] "Absent");
    [vm_compute; reflexivity | reflexivity | discriminate | discriminate].
Defined.

Lemma dict_get_set_same {V : Type} (d : dict V) (k : string) (v : V) :
  dict_get (dict_set d k v) k = Some v.
Proof.
  induction d as [|[k' v'] d IH]; simpl.
  - rewrite String.eqb_refl. reflexivity.
  - destruct (String.eqb k' k) eqn:E; simpl; rewrite E; [reflexivity | exact IH].
Qed.

Lemma dict_get_set_other {V : Type} (d : dict V) (k k' : string) (v : V) :
  k <> k' -> dict_get (dict_set d k v) k' = dict_get d k'.
Proof.
  intros Hne. induction d as [|[k0 v0] d IH]; simpl.
  - apply String.eqb_neq in Hne. rewrite Hne. reflexivity.
  - destruct (String.eqb k0 k) eqn:E; simpl.
    + apply String.eqb_eq in E. subst k0.
      apply String.eqb_neq in Hne. rewrite Hne. reflexivity.
    + destruct (String.eqb k0 k'); [reflexivity | exact IH].
Qed.

Lemma dict_set_keys {V : Type} (d : dict V) (k : string) (v : V) :
  keys (dict_set d k v) = if existsb (String.eqb k) (keys d) then keys d
                          else keys d ++ [k].
Proof.
  unfold keys. induction d as [|[k0 v0] d IH]; simpl; [reflexivity|].
  destruct (String.eqb k0 k) eqn:E; simpl.
  - rewrite (String.eqb_sym k k0), E. reflexivity.
  - rewrite (String.eqb_sym k k0), E. cbn [orb]. rewrite IH.
    destruct (existsb (String.eqb k) (map fst d)); reflexivity.
Qed.

(** X10.  [add_child] followed by [classify]: an example whose value in the tested
    column is the key just added is classified by the added subtree, also
    when the key was already present (the old subtree is replaced, at its
    place); an example with another value is classified as before.  A node
    without children refuses every example. *)
Theorem classify_after_add_child (a : nat) (name : string) (ch : dict tree)
    (val : string) (subtree : tree) (ex : example) (v : string) :
  nth_error ex a = Some v ->
  exists node',
    add_child (Node a name ch) val subtree = Ok node' /\
    (v = val -> classify node' ex = classify subtree ex) /\
    (v <> val -> classify node' ex = classify (Node a name ch) ex) /\
    classify (Node_init a name) ex = Raise KeyError /\
    (In val (keys ch) -> exists ch', node' = Node a name ch' /\ keys ch' = keys ch).
Proof.
  intros Hv. eexists. split; [reflexivity|].
  rewrite !classify_Node. unfold getitem. rewrite Hv. cbn [bind].
  split; [|split; [|split]].
  - intros ->. rewrite dict_get_set_same. reflexivity.
  - intros Hne. rewrite dict_get_set_other by congruence. reflexivity.
  - unfold Node_init. rewrite classify_Node. unfold getitem. rewrite Hv.
    reflexivity.
  - intros Hin. eexists. split; [reflexivity|]. rewrite dict_set_keys.
    destruct (existsb (String.eqb val) (keys ch)) eqn:E; [reflexivity|].
    exfalso. assert (Ht : existsb (String.eqb val) (keys ch) = true).
    { apply existsb_exists. exists val. split; [exact Hin | apply String.eqb_refl]. }
    congruence.
Qed.

Lemma classify_after_add_child_witness :
  nth_error ["democrat"; "Nay"] 1 = Some "Nay" /\
  exists node',
    add_child (Node 1 "vote1" [("Yea", Leaf "Republicans"); ("Nay", Leaf "Republicans")])
      "Nay" (Leaf "Democrats") = Ok node' /\
    classify node' ["democrat"; "Nay"] = Ok "Democrats".
Proof.
  split; [reflexivity|].
  destruct (classify_after_add_child 1 "vote1"
              [("Yea", Leaf "Republicans"); ("Nay", Leaf "Republicans")]
              "Nay" (Leaf "Democrats") ["democrat"; "Nay"] "Nay" eq_refl)
    as [node' [Hadd [Hsame _]]].
  exists node'. split; [exact Hadd|]. rewrite (Hsame eq_refl). reflexivity.
Defined.

(** ** Fitting the training data *)

Lemma list_remove_In_inv (x : nat) (xs r : list nat) :
  list_remove x xs = Ok r -> forall a, In a xs -> a = x \/ In a r.
Proof.
  revert r. induction xs as [|y ys IH]; simpl; intros r H a Ha; [contradiction|].
  destruct (Nat.eqb y x) eqn:E.
  - apply Nat.eqb_eq in E. subst y. injection H as <-.
    destruct Ha as [<-|Ha]; auto.
  - apply bind_Ok_inv in H. destruct H as [r' [Hr' H]]. injection H as <-.
    destruct Ha as [<-|Ha]; [right; left; reflexivity|].
    destruct (IH r' Hr' a Ha) as [->|Hin]; [auto | right; right; exact Hin].
Qed.

Lemma same_classification_labels (target : nat) (es : list example) (t : tree) :
  same_classification target es = Ok (Some t) ->
  forall e, In e es -> t = Leaf (class_label target e).
Proof.
  rewrite same_classification_spec.
  destruct (forallb (has_column target) es); [|discriminate].
  unfold class_label.
  destruct (Nat.eqb (republicans_in target es) 0) eqn:Hr.
  - apply Nat.eqb_eq in Hr. intros H e He. injection H as <-.
    rewrite (filter_length_zero (is_republican target) es Hr e He). reflexivity.
  - destruct (Nat.eqb (democrats_in target es) 0) eqn:Hd; [|discriminate].
    apply Nat.eqb_eq in Hd. intros H e He. injection H as <-.
    pose proof (filter_length_zero _ es Hd e He) as Hneg. cbn beta in Hneg.
    apply negb_false_iff in Hneg. rewrite Hneg. reflexivity.
Qed.

(** On examples that all have the class of [e], the plurality leaf
    predicts that class. *)
Lemma plurality_value_uniform (target : nat) (es : list example) (t : tree)
    (e : example) :
  plurality_value target es = Ok t -> In e es ->
  (forall e', In e' es -> is_republican target e' = is_republican target e) ->
  t = Leaf (class_label target e).
Proof.
  rewrite plurality_value_spec.
  destruct (forallb (has_column target) es); [|discriminate].
  intros H He Hall. injection H as <-. unfold class_label.
  destruct (is_republican target e) eqn:Hrep.
  - destruct (filter_length_all (is_republican target) es Hall) as [Hr Hd].
    unfold republicans_in, democrats_in. rewrite Hr, Hd.
    destruct es as [|x es']; [contradiction|]. reflexivity.
  - assert (Hr : republicans_in target es = 0).
    { unfold republicans_in.
      assert (Hnone : filter (is_republican target) es = []).
      { clear He. induction es as [|x es' IH]; [reflexivity|]. simpl.
        rewrite (Hall x) by (left; reflexivity).
        apply IH. intros e' He'. apply Hall. right. exact He'. }
      rewrite Hnone. reflexivity. }
    rewrite Hr. reflexivity.
Qed.

Lemma route_two_branches (a : nat) (name : string) (y n : tree) (ex : example) :
  route (Node a name [("Yea", y); ("Nay", n)]) ex =
  if affirmative a ex then route y ex else route n ex.
Proof. cbn [route]. destruct (affirmative a ex); reflexivity. Qed.

Lemma fitted_along_route (math_log2 : float -> float) (target : nat) (fuel : nat)
    (es : list example) (attrs : list nat) (parent : list example) (depth : Z)
    (t : tree) :
  decision_tree_learning math_log2 target fuel es attrs parent depth = Some (Ok t) ->
  (depth < 0 \/ Z.of_nat (List.length attrs) <= depth)%Z ->
  consistent target attrs es ->
  forall e, In e es -> route t e = Some (class_label target e).
Proof.
  revert fuel es attrs parent depth t.
  apply (decision_tree_learning_run_ind math_log2 target
           (fun es attrs parent depth t =>
              (depth < 0 \/ Z.of_nat (List.length attrs) <= depth)%Z ->
              consistent target attrs es ->
              forall e, In e es -> route t e = Some (class_label target e))).
  - intros es attrs parent t H Hdepth Hcons e He.
    assert (Hattrs : attrs = []) by (destruct attrs; [reflexivity | simpl in Hdepth; lia]).
    subst attrs.
    rewrite (plurality_value_uniform target es t e H He); [reflexivity|].
    intros e' He'. apply Hcons; [assumption | assumption | intros a []].
  - intros attrs parent depth t _ _ _ _ e [].
  - intros es attrs parent depth t _ _ H _ _ e He.
    rewrite (same_classification_labels target es t H e He). reflexivity.
  - intros es parent depth t _ _ _ H _ Hcons e He.
    rewrite (plurality_value_uniform target es t e H He); [reflexivity|].
    intros e' He'. apply Hcons; [assumption | assumption | intros a []].
  - intros es attrs parent depth A temp_attrs y n Hd _ _ _ HA Htemp IHy IHn
      Hdepth Hcons e He.
    pose proof (list_remove_length _ _ _ Htemp) as Hlen.
    assert (Hdepth' : (depth - 1 < 0 \/ Z.of_nat (List.length temp_attrs) <= depth - 1)%Z)
      by lia.
    rewrite route_two_branches.
    destruct (affirmative A e) eqn:Haff.
    + apply IHy; [exact Hdepth' | | apply filter_In; auto].
      intros e1 e2 H1 H2 Hagree. apply filter_In in H1, H2.
      destruct H1 as [H1 Ha1], H2 as [H2 Ha2].
      apply Hcons; [assumption | assumption |]. intros a Ha.
      destruct (list_remove_In_inv _ _ _ Htemp a Ha) as [->|Hin];
        [congruence | auto].
    + apply IHn; [exact Hdepth' | | apply filter_In; rewrite Haff; auto].
      intros e1 e2 H1 H2 Hagree. apply filter_In in H1, H2.
      destruct H1 as [H1 Ha1], H2 as [H2 Ha2].
      apply negb_true_iff in Ha1, Ha2.
      apply Hcons; [assumption | assumption |]. intros a Ha.
      destruct (list_remove_In_inv _ _ _ Htemp a Ha) as [->|Hin];
        [congruence | auto].
Qed.

(** X11.  With no effective depth limit (a negative one, or one not below the
    number of candidates) the tree fits consistent training data: when
    examples that agree, as [split] sees them, on all candidate columns are
    of one binarized class, every training example is sent to a leaf of its
    own class; and [classify] returns that class for every training example
    whose values in the candidate columns are "Yea" or "Nay". *)
Theorem consistent_data_is_fitted (math_log2 : float -> float) (target : nat)
    (fuel : nat) (es : list example) (attrs : list nat) (parent : list example)
    (depth : Z) (t : tree) (e : example) :
  decision_tree_learning math_log2 target fuel es attrs parent depth = Some (Ok t) ->
  (depth < 0 \/ Z.of_nat (List.length attrs) <= depth)%Z ->
  consistent target attrs es ->
  In e es ->
  route t e = Some (class_label target e) /\
  ((forall a, In a attrs ->
      nth_error e a = Some "Yea" \/ nth_error e a = Some "Nay") ->
   classify t e = Ok (class_label target e)).
Proof.
  intros Hrun Hdepth Hcons He.
  pose proof (fitted_along_route _ _ _ _ _ _ _ _ Hrun Hdepth Hcons e He) as Hroute.
  split; [exact Hroute|]. intros Hvals.
  destruct (classify_yea_nay_follows_route _ _ _ _ _ _ _ _ e Hrun Hvals)
    as [c [Hc Hr]].
  rewrite Hc. congruence.
Qed.

Lemma consistent_data_is_fitted_witness :
  decision_tree_learning log2_series 0 3 (examples two_votes_dataset) [1; 2] [] (-1) =
  Some (Ok (Node 1 "vote1"
              [("Yea", Node 2 "vote2" [("Yea", Leaf "Republicans");
                                       ("Nay", Leaf "Democrats")]);
               ("Nay", Leaf "Democrats")])) /\
  consistent 0 [1; 2] (examples two_votes_dataset) /\
  In ["republican"; "Yea"; "Yea"] (examples two_votes_dataset) /\
  classify (Node 1 "vote1"
              [("Yea", Node 2 "vote2" [("Yea", Leaf "Republicans");
                                       ("Nay", Leaf "Democrats")]);
               ("Nay", Leaf "Democrats")]) ["republican"; "Yea"; "Yea"]
  = Ok (class_label 0 ["republican"; "Yea"; "Yea"]).
Proof.
  assert (Hcons : consistent 0 [1; 2] (examples two_votes_dataset)).
  { intros e1 e2 H1 H2 Hagree.
    pose proof (Hagree 1 (or_introl eq_refl)) as Hv1.
    pose proof (Hagree 2 (or_intror (or_introl eq_refl))) as Hv2.
    simpl in H1, H2.
    repeat (destruct H1 as [<-|H1]); try contradiction;
      repeat (destruct H2 as [<-|H2]); try contradiction;
      try reflexivity; vm_compute in Hv1, Hv2; discriminate. }
  split; [vm_compute; reflexivity|]. split; [exact Hcons|].
  split; [left; reflexivity|].
  apply (consistent_data_is_fitted log2_series 0 3 (examples two_votes_dataset)
           [1; 2] [] (-1));
    [vm_compute; reflexivity | left; lia | exact Hcons | left; reflexivity |].
  intros a [<-|[<-|[]]]; left; reflexivity.
Defined.

(** ** The entry point [learn_decision_tree] *)

Lemma index_str_In (x : string) (xs : list string) :
  In x xs -> exists i, index_str x xs = Ok i /\ i < List.length xs.
Proof.
  induction xs as [|y ys IH]; simpl; intros H; [contradiction|].
  destruct (String.eqb y x) eqn:E; [exists 0; split; [reflexivity | lia]|].
  apply String.eqb_neq in E. destruct H as [H|H]; [contradiction|].
  destruct (IH H) as [i [Hi Hlt]]. rewrite Hi. exists (S i).
  split; [reflexivity | lia].
Qed.

Lemma index_str_Ok (x : string) (xs : list string) (i : nat) :
  index_str x xs = Ok i -> nth_error xs i = Some x /\ i < List.length xs.
Proof.
  revert i. induction xs as [|y ys IH]; simpl; intros i H; [discriminate|].
  destruct (String.eqb y x) eqn:E.
  - apply String.eqb_eq in E. injection H as <-. subst. split; [reflexivity | lia].
  - apply bind_Ok_inv in H. destruct H as [j [Hj H]]. injection H as <-.
    destruct (IH j Hj) as [Hnth Hlt]. split; [exact Hnth | lia].
Qed.

Lemma index_str_Raise (x : string) (xs : list string) (e : exn) :
  index_str x xs = Raise e -> e = ValueError /\ ~ In x xs.
Proof.
  induction xs as [|y ys IH]; simpl; intros H.
  - split; [congruence | tauto].
  - destruct (String.eqb y x) eqn:E; [discriminate|].
    apply String.eqb_neq in E.
    apply bind_Raise_inv in H. destruct H as [H | [j [_ H]]]; [|discriminate].
    destruct (IH H) as [He Hnot]. split; [exact He | tauto].
Qed.

Lemma mapM_Ok_all {A B : Type} (f : A -> result B) (xs : list A) (ys : list B) :
  mapM f xs = Ok ys -> forall x, In x xs -> exists y, f x = Ok y /\ In y ys.
Proof.
  revert ys. induction xs as [|x0 xs IH]; simpl; intros ys H x Hx; [contradiction|].
  apply bind_Ok_inv in H. destruct H as [y0 [Hy0 H]].
  apply bind_Ok_inv in H. destruct H as [ys' [Hys' H]]. injection H as <-.
  destruct Hx as [<-|Hx]; [exists y0; split; [exact Hy0 | left; reflexivity]|].
  destruct (IH ys' Hys' x Hx) as [y [Hy Hin]]. exists y. split; [exact Hy | right; exact Hin].
Qed.

Lemma mapM_Ok_intro {A B : Type} (f : A -> result B) (xs : list A) :
  (forall x, In x xs -> exists y, f x = Ok y) -> exists ys, mapM f xs = Ok ys.
Proof.
  induction xs as [|x xs IH]; simpl; intros H; [eauto|].
  destruct (H x (or_introl eq_refl)) as [y Hy]. rewrite Hy. cbn [bind].
  destruct IH as [ys Hys]; [intros x' Hx'; apply H; right; exact Hx'|].
  rewrite Hys. cbn [bind]. eauto.
Qed.

(** X12.  [learn_decision_tree] raises [ValueError] exactly when the target name
    or one of the feature names is not in the header; it does so before
    any example is looked at and whatever the depth limit. *)
Theorem unknown_name_is_ValueError (math_log2 : float -> float) (fuel : nat)
    (dataset : DataSet) (target_name : string) (feature_names : list string)
    (depth_limit : Z) :
  learn_decision_tree math_log2 fuel dataset target_name feature_names depth_limit
    = Some (Raise ValueError) <->
  (~ In target_name (attributes dataset) \/
   exists name, In name feature_names /\ ~ In name (attributes dataset)).
Proof.
  unfold learn_decision_tree. split.
  - destruct (index_str target_name (attributes dataset)) as [target|e] eqn:Ht.
    + destruct (mapM _ feature_names) as [features|e] eqn:Hf.
      * intros H. apply decision_tree_learning_Raise in H. discriminate.
      * intros _. apply mapM_Raise in Hf. destruct Hf as [name [Hin Hname]].
        apply index_str_Raise in Hname. right. exists name. tauto.
    + intros _. apply index_str_Raise in Ht. left. tauto.
  - intros Hmiss.
    destruct (index_str target_name (attributes dataset)) as [target|e] eqn:Ht.
    + destruct Hmiss as [Hnot | [name [Hin Hnot]]].
      * apply index_str_Ok in Ht. destruct Ht as [Ht _].
        apply nth_error_In in Ht. contradiction.
      * destruct (mapM _ feature_names) as [features|e] eqn:Hf.
        -- destruct (mapM_Ok_all _ _ _ Hf name Hin) as [i [Hi _]].
           apply index_str_Ok in Hi. destruct Hi as [Hi _].
           apply nth_error_In in Hi. contradiction.
        -- apply mapM_Raise in Hf. destruct Hf as [name' [_ Hname']].
           apply index_str_Raise in Hname'. destruct Hname' as [-> _]. reflexivity.
    + apply index_str_Raise in Ht. destruct Ht as [-> _]. reflexivity.
Qed.

(** X13.  A data set without rows: whatever the depth limit and the features,
    the learned tree is Leaf("Democrats"). *)
Theorem no_rows_gives_Democrats (math_log2 : float -> float) (fuel : nat)
    (dataset : DataSet) (target_name : string) (feature_names : list string)
    (depth_limit : Z) :
  examples dataset = [] ->
  In target_name (attributes dataset) ->
  (forall name, In name feature_names -> In name (attributes dataset)) ->
  learn_decision_tree math_log2 (S fuel) dataset target_name feature_names depth_limit
    = Some (Ok (Leaf "Democrats")).
Proof.
  intros Hrows Ht Hf. unfold learn_decision_tree.
  destruct (index_str_In _ _ Ht) as [target [Htarget _]]. rewrite Htarget.
  destruct (mapM_Ok_intro (fun name => index_str name (attributes dataset)) feature_names)
    as [features Hfeatures].
  { intros name Hname. destruct (index_str_In _ _ (Hf name Hname)) as [i [Hi _]]. eauto. }
  rewrite Hfeatures, Hrows, decision_tree_learning_unfold.
  destruct (depth_limit =? 0)%Z; reflexivity.
Qed.

Lemma no_rows_gives_Democrats_witness :
  examples (mkDataSet ["class"; "vote1"] [] []) = [] /\
  learn_decision_tree log2_series 1 (mkDataSet ["class"; "vote1"] [] [])
    "class" ["vote1"] 5 = Some (Ok (Leaf "Democrats")).
Proof.
  split; [reflexivity|].
  apply (no_rows_gives_Democrats log2_series 0 (mkDataSet ["class"; "vote1"] [] [])
           "class" ["vote1"] 5); [reflexivity | left; reflexivity |].
  intros name [<-|[]]. right. left. reflexivity.
Defined.

Lemma forallb_filter_sub {A : Type} (p q : A -> bool) (l : list A) :
  forallb p l = true -> forallb p (filter q l) = true.
Proof.
  rewrite !forallb_forall. intros H x Hx. apply filter_In in Hx. apply H, Hx.
Qed.

Lemma information_gain_returns (math_log2 : float -> float) (target : nat)
    (es : list example) (a : nat) :
  es <> [] -> forallb (has_column target) es = true ->
  forallb (has_column a) es = true ->
  exists g, (parts <- split a es ;; information_gain math_log2 target es parts) = Ok g.
Proof.
  intros Hne Ht Ha. rewrite split_spec, Ha. cbn [bind]. unfold information_gain.
  rewrite children_loop_value; [| exact Hne |].
  - cbn [bind]. rewrite entropy_value by assumption. cbn [bind]. eauto.
  - cbn [forallb]. rewrite !forallb_filter_sub by exact Ht. reflexivity.
Qed.

Lemma argmax_returns (math_log2 : float -> float) (target : nat)
    (attrs : list nat) (es : list example) :
  es <> [] -> attrs <> [] -> rectangular target attrs es = true ->
  exists A, argmax math_log2 target attrs es = Ok A /\ In A attrs.
Proof.
  intros Hes Hattrs Hrect. unfold rectangular in Hrect.
  apply andb_prop in Hrect. destruct Hrect as [Ht Hcols].
  rewrite forallb_forall in Hcols.
  destruct (mapM_Ok_intro
              (fun attribute =>
                 parts <- split attribute es ;;
                 information_gain math_log2 target es parts) attrs)
    as [gains Hgains].
  { intros a Ha. apply information_gain_returns; auto. }
  destruct (argmax_cases math_log2 target attrs es)
    as [[A [HA [Hin _]]] | [H | [[_ H] | [_ H]]]]; [eauto | | contradiction..].
  exfalso. unfold argmax in H. rewrite Hgains in H. cbn [bind] in H.
  pose proof (mapM_length _ _ _ Hgains) as Hlen.
  destruct (py_max gains) as [m|e] eqn:Hmax.
  - cbn [bind] in H. pose proof (py_max_bound _ _ Hmax) as Hm.
    destruct (index_loop_found gains 0 m) as [i [Hi [_ Hle]]]; [lia | lia |].
    unfold py_index in H. rewrite Hi in H. cbn [bind] in H. unfold getitem in H.
    destruct (nth_error attrs i) eqn:Hnth; [discriminate|].
    apply nth_error_None in Hnth. lia.
  - destruct gains; [|discriminate]. destruct attrs; [contradiction | discriminate].
Qed.

Lemma rectangular_sub (target : nat) (attrs temp_attrs : list nat)
    (es : list example) (q : example -> bool) :
  (forall a, In a temp_attrs -> In a attrs) ->
  rectangular target attrs es = true ->
  rectangular target temp_attrs (filter q es) = true.
Proof.
  unfold rectangular. intros Hsub H. apply andb_prop in H. destruct H as [Ht Hcols].
  rewrite forallb_forall in Hcols.
  rewrite (forallb_filter_sub _ q es Ht). cbn [andb].
  apply forallb_forall. intros a Ha. apply forallb_filter_sub. auto.
Qed.

Lemma decision_tree_learning_succeeds (math_log2 : float -> float) (target : nat)
    (fuel : nat) (es : list example) (attrs : list nat) (parent : list example)
    (depth : Z) :
  rectangular target attrs es = true ->
  forallb (has_column target) parent = true ->
  List.length attrs < fuel ->
  exists t, decision_tree_learning math_log2 target fuel es attrs parent depth
            = Some (Ok t).
Proof.
  revert es attrs parent depth.
  induction fuel as [|fuel IH]; intros es attrs parent depth Hrect Hpar Hfuel; [lia|].
  pose proof Hrect as Hrect'. unfold rectangular in Hrect'.
  apply andb_prop in Hrect'. destruct Hrect' as [Ht _].
  rewrite decision_tree_learning_unfold, !plurality_value_spec,
    same_classification_spec, Ht, Hpar.
  destruct (depth =? 0)%Z; [eauto|].
  destruct es as [|e es']; [cbn [List.length Nat.eqb]; eauto|].
  cbn [List.length Nat.eqb].
  destruct (Nat.eqb (republicans_in target (e :: es')) 0); [eauto|].
  destruct (Nat.eqb (democrats_in target (e :: es')) 0); [eauto|].
  destruct attrs as [|a attrs']; [cbn [List.length Nat.eqb]; eauto|].
  cbn [List.length Nat.eqb].
  destruct (argmax_returns math_log2 target (a :: attrs') (e :: es'))
    as [A [HA Hin]]; [discriminate | discriminate | exact Hrect |].
  rewrite HA. destruct (list_remove_In _ _ Hin) as [temp_attrs Htemp].
  rewrite Htemp. pose proof (list_remove_length _ _ _ Htemp) as Hlen.
  cbn [List.length] in Hlen, Hfuel.
  destruct (IH (filter (affirmative A) (e :: es')) temp_attrs (e :: es') (depth - 1)%Z)
    as [y Hy]; [eapply rectangular_sub; [eapply list_remove_incl|]; eauto
               | exact Ht | lia |].
  destruct (IH (filter (fun x => negb (affirmative A x)) (e :: es')) temp_attrs
              (e :: es') (depth - 1)%Z)
    as [n Hn]; [eapply rectangular_sub; [eapply list_remove_incl|]; eauto
               | exact Ht | lia |].
  rewrite Hy, Hn. cbn [node_of_branches]. eauto.
Qed.

(** X14.  On a data set whose rows all have as many fields as the header, with a
    target name and feature names taken from the header,
    [learn_decision_tree] raises nothing and returns a tree: for every
    depth limit and every content of the fields. *)
Theorem rectangular_data_is_learned (math_log2 : float -> float) (fuel : nat)
    (dataset : DataSet) (target_name : string) (feature_names : list string)
    (depth_limit : Z) :
  (forall row, In row (examples dataset) ->
               List.length row = List.length (attributes dataset)) ->
  In target_name (attributes dataset) ->
  (forall name, In name feature_names -> In name (attributes dataset)) ->
  List.length feature_names < fuel ->
  exists t,
    learn_decision_tree math_log2 fuel dataset target_name feature_names depth_limit
    = Some (Ok t).
Proof.
  intros Hrows Ht Hf Hfuel. unfold learn_decision_tree.
  destruct (index_str_In _ _ Ht) as [target [Htarget Htlt]]. rewrite Htarget.
  destruct (mapM_Ok_intro (fun name => index_str name (attributes dataset)) feature_names)
    as [features Hfeatures].
  { intros name Hname. destruct (index_str_In _ _ (Hf name Hname)) as [i [Hi _]]. eauto. }
  rewrite Hfeatures.
  assert (Hcol : forall i, i < List.length (attributes dataset) ->
                           forallb (has_column i) (examples dataset) = true).
  { intros i Hi. apply forallb_forall. intros row Hrow.
    unfold has_column. apply Nat.ltb_lt. rewrite (Hrows row Hrow). exact Hi. }
  apply decision_tree_learning_succeeds.
  - unfold rectangular. rewrite (Hcol target Htlt). cbn [andb].
    apply forallb_forall. intros a Ha. apply Hcol.
    clear - Hfeatures Ha. revert features Hfeatures Ha.
    induction feature_names as [|name names IH]; intros features Hfeatures Ha.
    + injection Hfeatures as <-. contradiction.
    + cbn [mapM] in Hfeatures. apply bind_Ok_inv in Hfeatures.
      destruct Hfeatures as [i [Hi Hfeatures]].
      apply bind_Ok_inv in Hfeatures. destruct Hfeatures as [idxs [Hidxs Hfeatures]].
      injection Hfeatures as <-. destruct Ha as [<-|Ha].
      * apply index_str_Ok in Hi. tauto.
      * eapply IH; eauto.
  - reflexivity.
  - apply mapM_length in Hfeatures. lia.
Qed.

Lemma rectangular_data_is_learned_witness :
  (forall row, In row (examples two_votes_dataset) ->
               List.length row = List.length (attributes two_votes_dataset)) /\
  List.length ["vote2"; "vote1"] < 3 /\
  exists t,
    learn_decision_tree log2_series 3 two_votes_dataset "class" ["vote2"; "vote1"] 2
    = Some (Ok t).
Proof.
  assert (Hrows : forall row, In row (examples two_votes_dataset) ->
                    List.length row = List.length (attributes two_votes_dataset)).
  { intros row Hrow. simpl in Hrow.
    repeat (destruct Hrow as [<-|Hrow]; [reflexivity|]). contradiction. }
  split; [exact Hrows|]. split; [simpl; lia|].
  apply (rectangular_data_is_learned log2_series 3 two_votes_dataset "class"
           ["vote2"; "vote1"] 2); [exact Hrows | left; reflexivity | | simpl; lia].
  intros name [<-|[<-|[]]]; simpl; auto.
Defined.

(** ** The order of the rows *)

Lemma Permutation_filter_both {A : Type} (f : A -> bool) (l l' : list A) :
  Permutation l l' -> Permutation (filter f l) (filter f l').
Proof.
  induction 1 as [| x l l' _ IH | x y l | l l' l'' _ IH1 _ IH2]; simpl.
  - constructor.
  - destruct (f x); [constructor|]; exact IH.
  - destruct (f x), (f y); try apply Permutation_refl. constructor.
  - eapply Permutation_trans; eauto.
Qed.

Lemma forallb_Permutation {A : Type} (f : A -> bool) (l l' : list A) :
  Permutation l l' -> forallb f l = forallb f l'.
Proof.
  induction 1 as [| x l l' _ IH | x y l | l l' l'' _ IH1 _ IH2]; simpl.
  - reflexivity.
  - rewrite IH. reflexivity.
  - destruct (f x), (f y); reflexivity.
  - congruence.
Qed.

Section RowOrder.

Variable math_log2 : float -> float.
Variable target : nat.

Lemma counts_Permutation (es es' : list example) :
  Permutation es es' ->
  republicans_in target es = republicans_in target es' /\
  democrats_in target es = democrats_in target es'.
Proof.
  intros H. unfold republicans_in, democrats_in.
  split; apply Permutation_length, Permutation_filter_both, H.
Qed.

Lemma plurality_value_Permutation (es es' : list example) :
  Permutation es es' -> plurality_value target es = plurality_value target es'.
Proof.
  intros H. rewrite !plurality_value_spec.
  destruct (counts_Permutation es es' H) as [-> ->].
  rewrite (forallb_Permutation _ es es' H). reflexivity.
Qed.

Lemma same_classification_Permutation (es es' : list example) :
  Permutation es es' ->
  same_classification target es = same_classification target es'.
Proof.
  intros H. rewrite !same_classification_spec.
  destruct (counts_Permutation es es' H) as [-> ->].
  rewrite (forallb_Permutation _ es es' H). reflexivity.
Qed.

Lemma entropy_Permutation (es es' : list example) :
  Permutation es es' -> entropy math_log2 target es = entropy math_log2 target es'.
Proof.
  intros H. unfold entropy. rewrite !count_loop_spec.
  destruct (counts_Permutation es es' H) as [-> ->].
  rewrite (forallb_Permutation _ es es' H). reflexivity.
Qed.

Lemma children_loop_Permutation (parent parent' : list example)
    (children children' : list (list example)) (acc : float) :
  Permutation parent parent' ->
  Forall2 (@Permutation example) children children' ->
  children_loop math_log2 target parent children acc =
  children_loop math_log2 target parent' children' acc.
Proof.
  intros Hp Hc. revert acc.
  induction Hc as [|child child' rest rest' Hchild _ IH]; intros acc; [reflexivity|].
  cbn [children_loop].
  rewrite (Permutation_length Hchild), (Permutation_length Hp),
    (entropy_Permutation child child' Hchild).
  destruct (Nat.eqb (List.length child') 0); [apply IH|].
  destruct (truediv (List.length child') (List.length parent')) as [w|e];
    [|reflexivity].
  cbn [bind]. destruct (entropy math_log2 target child') as [h|e]; [|reflexivity].
  cbn [bind]. apply IH.
Qed.

Lemma gain_Permutation (es es' : list example) (a : nat) :
  Permutation es es' ->
  (parts <- split a es ;; information_gain math_log2 target es parts) =
  (parts <- split a es' ;; information_gain math_log2 target es' parts).
Proof.
  intros H. rewrite !split_spec, (forallb_Permutation _ es es' H).
  destruct (forallb (has_column a) es'); [|reflexivity].
  cbn [bind]. unfold information_gain.
  rewrite (children_loop_Permutation es es'
             [filter (affirmative a) es; filter (fun e => negb (affirmative a e)) es]
             [filter (affirmative a) es'; filter (fun e => negb (affirmative a e)) es']
             0%float H)
    by (repeat constructor; apply Permutation_filter_both, H).
  rewrite (entropy_Permutation es es' H). reflexivity.
Qed.

Lemma mapM_ext {A B : Type} (f g : A -> result B) (xs : list A) :
  (forall x, f x = g x) -> mapM f xs = mapM g xs.
Proof.
  intros H. induction xs as [|x xs IH]; simpl; [reflexivity|].
  rewrite H, IH. reflexivity.
Qed.

Lemma argmax_Permutation (attrs : list nat) (es es' : list example) :
  Permutation es es' ->
  argmax math_log2 target attrs es = argmax math_log2 target attrs es'.
Proof.
  intros H. unfold argmax.
  rewrite (mapM_ext _ (fun attribute =>
                         parts <- split attribute es' ;;
                         information_gain math_log2 target es' parts) attrs)
    by (intros a; apply gain_Permutation, H).
  reflexivity.
Qed.

Lemma decision_tree_learning_Permutation (fuel : nat) (es es' : list example)
    (attrs : list nat) (parent parent' : list example) (depth : Z) :
  Permutation es es' -> Permutation parent parent' ->
  decision_tree_learning math_log2 target fuel es attrs parent depth =
  decision_tree_learning math_log2 target fuel es' attrs parent' depth.
Proof.
  revert es es' attrs parent parent' depth.
  induction fuel as [|fuel IH]; intros es es' attrs parent parent' depth Hes Hpar;
    [reflexivity|].
  rewrite !decision_tree_learning_unfold.
  rewrite (plurality_value_Permutation es es' Hes),
    (plurality_value_Permutation parent parent' Hpar),
    (same_classification_Permutation es es' Hes),
    (argmax_Permutation attrs es es' Hes), (Permutation_length Hes).
  destruct (depth =? 0)%Z; [reflexivity|].
  destruct (Nat.eqb (List.length es') 0); [reflexivity|].
  destruct (same_classification target es') as [[leaf|]|e]; try reflexivity.
  destruct (Nat.eqb (List.length attrs) 0); [reflexivity|].
  destruct (argmax math_log2 target attrs es') as [A|e]; [|reflexivity].
  destruct (list_remove A attrs) as [temp_attrs|e]; [|reflexivity].
  rewrite (IH (filter (affirmative A) es) (filter (affirmative A) es')
              temp_attrs es es' (depth - 1)%Z)
    by (try apply Permutation_filter_both; exact Hes).
  rewrite (IH (filter (fun e => negb (affirmative A e)) es)
              (filter (fun e => negb (affirmative A e)) es')
              temp_attrs es es' (depth - 1)%Z)
    by (try apply Permutation_filter_both; exact Hes).
  reflexivity.
Qed.

End RowOrder.

(** X15.  The learned tree does not depend on the order of the rows: two data
    sets with the same header whose rows are rearrangements of each other
    give the same tree, or the same exception. *)
Theorem row_order_is_irrelevant (math_log2 : float -> float) (fuel : nat)
    (dataset dataset' : DataSet) (target_name : string)
    (feature_names : list string) (depth_limit : Z) :
  attributes dataset = attributes dataset' ->
  Permutation (examples dataset) (examples dataset') ->
  learn_decision_tree math_log2 fuel dataset target_name feature_names depth_limit =
  learn_decision_tree math_log2 fuel dataset' target_name feature_names depth_limit.
Proof.
  intros Hattrs Hrows. unfold learn_decision_tree. rewrite <- Hattrs.
  destruct (index_str target_name (attributes dataset)) as [target|e]; [|reflexivity].
  destruct (mapM _ feature_names) as [features|e]; [|reflexivity].
  apply decision_tree_learning_Permutation; [exact Hrows | apply Permutation_refl].
Qed.

Lemma row_order_is_irrelevant_witness :
  Permutation (examples two_votes_dataset) (rev (examples two_votes_dataset)) /\
  learn_decision_tree log2_series 3 two_votes_dataset "class" ["vote1"; "vote2"] (-1) =
  learn_decision_tree log2_series 3
    (mkDataSet (attributes two_votes_dataset) (domains two_votes_dataset)
       (rev (examples two_votes_dataset)))
    "class" ["vote1"; "vote2"] (-1).
Proof.
  split; [apply Permutation_rev|].
  apply (row_order_is_irrelevant log2_series 3 two_votes_dataset
           (mkDataSet (attributes two_votes_dataset) (domains two_votes_dataset)
              (rev (examples two_votes_dataset))));
    [reflexivity | apply Permutation_rev].
Defined.

Lemma information_gain_value_witness :
  thirds_examples <> [] /\
  forallb (has_column 0) thirds_examples = true /\
  information_gain log2_series 0 thirds_examples
    [filter (affirmative 1) thirds_examples;
     filter (fun e => negb (affirmative 1 e)) thirds_examples; []] =
  Ok (entropy_of log2_series 0 thirds_examples
      - weighted_entropies log2_series 0 thirds_examples
          [filter (affirmative 1) thirds_examples;
           filter (fun e => negb (affirmative 1 e)) thirds_examples])%float.
Proof.
  split; [discriminate|]. split; [reflexivity|].
  apply (information_gain_value log2_series 0 thirds_examples
           [filter (affirmative 1) thirds_examples;
            filter (fun e => negb (affirmative 1 e)) thirds_examples; []]);
    [discriminate | reflexivity | reflexivity].
Defined.

(** ** Printing *)

Lemma count_newlines_app (s1 s2 : string) :
  count_newlines (s1 ++ s2) = count_newlines s1 + count_newlines s2.
Proof.
  induction s1 as [|c s1 IH]; simpl; [reflexivity|]. rewrite IH. lia.
Qed.

Lemma count_newlines_spaces (n : nat) : count_newlines (spaces n) = 0.
Proof. induction n as [|n IH]; simpl; [reflexivity | exact IH]. Qed.

(** X17.  [show] writes one line for each node and each leaf of the tree, at
    every indentation level, as long as no label contains a line break. *)
Theorem show_line_count (t : tree) (level : nat) :
  plain_labels t = true -> count_newlines (show t level) = size t.
Proof.
  revert level.
  induction t as [c|a name ch IH] using tree_nested_ind; intros level Hplain.
  - cbn [show plain_labels size] in *. apply Nat.eqb_eq in Hplain.
    rewrite !count_newlines_app, Hplain. reflexivity.
  - cbn [plain_labels] in Hplain. apply andb_prop in Hplain.
    destruct Hplain as [Hname Hch]. apply Nat.eqb_eq in Hname.
    cbn [show size]. rewrite !count_newlines_app, Hname.
    change (count_newlines "Test: ") with 0.
    change (count_newlines newline) with 1. cbn [Nat.add]. f_equal.
    induction ch as [|[val subtree] ch IHch]; [reflexivity|].
    inversion IH as [|kv ch' Hsub Hrest]; subst.
    cbn [forallb fst snd] in Hch. apply andb_prop in Hch.
    destruct Hch as [Hkv Hch]. apply andb_prop in Hkv.
    destruct Hkv as [Hval Hsubplain]. apply Nat.eqb_eq in Hval.
    cbn [map list_sum snd].
    rewrite !count_newlines_app, count_newlines_spaces, Hname, Hval.
    cbn [snd] in Hsub. rewrite (Hsub (S level) Hsubplain).
    rewrite (IHch Hrest Hch).
    change (count_newlines " if ") with 0. change (count_newlines " = ") with 0.
    change (count_newlines " ==> ") with 0. reflexivity.
Qed.

Lemma show_line_count_witness :
  plain_labels (Node 1 "vote1" [("Yea", Leaf "Republicans"); ("Nay", Leaf "Democrats")])
    = true /\
  show (Node 1 "vote1" [("Yea", Leaf "Republicans"); ("Nay", Leaf "Democrats")]) 1 =
    ("Test: vote1" ++ newline ++
     "     if vote1 = Yea ==> Predicted class: Republicans" ++ newline ++
     "     if vote1 = Nay ==> Predicted class: Democrats" ++ newline)%string /\
  count_newlines
    (show (Node 1 "vote1" [("Yea", Leaf "Republicans"); ("Nay", Leaf "Democrats")]) 1)
  = 3.
Proof.
  split; [reflexivity|]. split; [reflexivity|].
  apply (show_line_count
           (Node 1 "vote1" [("Yea", Leaf "Republicans"); ("Nay", Leaf "Democrats")]) 1).
  reflexivity.
Defined.

(** ** Further guarantees for callers *)

(** X18.  An example whose fields in the feature columns are all "Yea" or "Nay"
    is always classified by the learned tree: [classify] raises nothing,
    follows at every node the branch [split] would choose, and returns
    "Democrats" or "Republicans". *)
Theorem learned_tree_classifies_yea_nay (math_log2 : float -> float) (fuel : nat)
    (dataset : DataSet) (target_name : string) (feature_names : list string)
    (depth_limit : Z) (t : tree) (ex : example) :
  learn_decision_tree math_log2 fuel dataset target_name feature_names depth_limit
    = Some (Ok t) ->
  (forall name i, In name feature_names ->
      index_str name (attributes dataset) = Ok i ->
      nth_error ex i = Some "Yea" \/ nth_error ex i = Some "Nay") ->
  exists c, classify t ex = Ok c /\ route t ex = Some c /\
            (c = "Democrats" \/ c = "Republicans").
Proof.
  unfold learn_decision_tree.
  destruct (index_str target_name (attributes dataset)) as [target|e]; [|discriminate].
  destruct (mapM _ feature_names) as [features|e] eqn:Hf; [|discriminate].
  intros Hrun Hvals.
  assert (Hcols : forall a, In a features ->
                    nth_error ex a = Some "Yea" \/ nth_error ex a = Some "Nay").
  { intros a Ha. clear Hrun. revert features Hf Ha.
    induction feature_names as [|name names IH]; intros features Hf Ha.
    - injection Hf as <-. contradiction.
    - cbn [mapM] in Hf. apply bind_Ok_inv in Hf. destruct Hf as [i [Hi Hf]].
      apply bind_Ok_inv in Hf. destruct Hf as [idxs [Hidxs Hf]].
      injection Hf as <-. destruct Ha as [<-|Ha].
      + apply (Hvals name i); [left; reflexivity | exact Hi].
      + apply (IH (fun n j Hn => Hvals n j (or_intror Hn)) idxs Hidxs Ha). }
  destruct (classify_yea_nay_follows_route _ _ _ _ _ _ _ _ ex Hrun Hcols)
    as [c [Hc Hr]].
  exists c. split; [exact Hc|]. split; [exact Hr|].
  pose proof (classify_Ok_leaf _ _ _ Hc) as Hleaf.
  revert Hleaf. clear Hc Hr. revert c.
  revert fuel Hrun. generalize (examples dataset), features, (@nil example), depth_limit.
  intros es attrs parent depth fuel Hrun. revert fuel es attrs parent depth t Hrun.
  apply (decision_tree_learning_run_ind math_log2 target
           (fun _ _ _ _ t =>
              forall c, In c (leaves t) -> c = "Democrats" \/ c = "Republicans")).
  - intros es attrs parent t H. apply plurality_value_class in H.
    destruct H as [-> | ->]; intros c [<-|[]]; auto.
  - intros attrs parent depth t _ H. apply plurality_value_class in H.
    destruct H as [-> | ->]; intros c [<-|[]]; auto.
  - intros es attrs parent depth t _ _ H. apply same_classification_class in H.
    destruct H as [-> | ->]; intros c [<-|[]]; auto.
  - intros es parent depth t _ _ _ H. apply plurality_value_class in H.
    destruct H as [-> | ->]; intros c [<-|[]]; auto.
  - intros es attrs parent depth A temp_attrs y n _ _ _ _ _ _ Hy Hn c Hc.
    cbn [leaves flat_map snd] in Hc. rewrite app_nil_r in Hc.
    apply in_app_or in Hc. destruct Hc as [Hc|Hc]; auto.
Qed.

Lemma learned_tree_classifies_yea_nay_witness :
  learn_decision_tree log2_series 3 two_votes_dataset "class" ["vote1"; "vote2"] (-1) =
  Some (Ok (Node 1 "vote1"
              [("Yea", Node 2 "vote2" [("Yea", Leaf "Republicans");
                                       ("Nay", Leaf "Democrats")]);
               ("Nay", Leaf "Democrats")])) /\
  exists c,
    classify (Node 1 "vote1"
                [("Yea", Node 2 "vote2" [("Yea", Leaf "Republicans");
                                         ("Nay", Leaf "Democrats")]);
                 ("Nay", Leaf "Democrats")]) ["?"; "Yea"; "Nay"] = Ok c /\
    route (Node 1 "vote1"
             [("Yea", Node 2 "vote2" [("Yea", Leaf "Republicans");
                                      ("Nay", Leaf "Democrats")]);
              ("Nay", Leaf "Democrats")]) ["?"; "Yea"; "Nay"] = Some c /\
    (c = "Democrats" \/ c = "Republicans").
Proof.
  split; [vm_compute; reflexivity|].
  apply (learned_tree_classifies_yea_nay log2_series 3 two_votes_dataset "class"
           ["vote1"; "vote2"] (-1)); [vm_compute; reflexivity|].
  intros name i [<-|[<-|[]]] Hi; vm_compute in Hi; injection Hi as <-;
    [left | right]; reflexivity.
Defined.

(** X19.  The three helpers that count classes fail exactly when some row is too
    short to have the target column, and then with [IndexError]; [entropy]
    fails in addition on the empty list, with [ZeroDivisionError]. *)
Theorem short_row_is_IndexError (math_log2 : float -> float) (target : nat)
    (es : list example) :
  let short := exists row, In row es /\ List.length row <= target in
  (plurality_value target es = Raise IndexError <-> short) /\
  (same_classification target es = Raise IndexError <-> short) /\
  (entropy math_log2 target es = Raise IndexError <-> short) /\
  ((exists t, plurality_value target es = Ok t) <-> ~ short) /\
  ((exists h, entropy math_log2 target es = Ok h) <-> ~ short /\ es <> []).
Proof.
  cbv zeta.
  assert (Hshort : forallb (has_column target) es = false <->
                   exists row, In row es /\ List.length row <= target).
  { rewrite forallb_false_exists. split; intros [row [Hin H]]; exists row;
      (split; [exact Hin|]); unfold has_column in *;
      [apply Nat.ltb_ge in H | apply Nat.ltb_ge]; exact H. }
  rewrite plurality_value_spec, same_classification_spec.
  destruct (forallb (has_column target) es) eqn:Hcols.
  - assert (Hnot : ~ (exists row, In row es /\ List.length row <= target)).
    { intros H. apply Hshort in H. congruence. }
    split; [split; [discriminate | contradiction]|].
    split; [split; [discriminate | contradiction]|].
    destruct (entropy_cases math_log2 target es)
      as [[-> He] | [[Hne [Hc He]] | [Hne [_ [h He]]]]]; [| congruence |];
      rewrite He.
    + split; [split; [discriminate | contradiction]|].
      split; [split; [intros _; exact Hnot | eauto]|].
      split; [intros [h Hh]; discriminate | intros [_ H]; contradiction].
    + split; [split; [discriminate | contradiction]|].
      split; [split; [intros _; exact Hnot | eauto]|].
      split; [intros _; split; assumption | eauto].
  - assert (Hyes : exists row, In row es /\ List.length row <= target)
      by (apply Hshort; reflexivity).
    split; [split; [intros _; exact Hyes | reflexivity]|].
    split; [split; [intros _; exact Hyes | reflexivity]|].
    destruct (entropy_cases math_log2 target es)
      as [[-> He] | [[Hne [_ He]] | [Hne [Hc _]]]]; [discriminate | | congruence];
      rewrite He.
    split; [split; [intros _; exact Hyes | reflexivity]|].
    split; [split; [intros [t Ht]; discriminate | contradiction]|].
    split; [intros [h Hh]; discriminate | intros [H _]; contradiction].
Qed.

(** ** The sign of the computed gain *)

(** Splitting [thirds_examples] on the vote leaves the class proportions
    as they are: the exact gain is zero.  For every logarithm that returns
    [-0x1.95c01a39fbd69p+0] at the binary64 number nearest to 1/3 and
    [-0x1.2b803473f7ad2p-1] at the one nearest to 2/3, which are the values
    of [math.log(x, 2)] there, the computed gain is [-2^-53]. *)
Lemma gain_at_thirds (math_log2 : float -> float) :
  math_log2 0x1.5555555555555p-2%float = (-0x1.95c01a39fbd69p+0)%float ->
  math_log2 0x1.5555555555555p-1%float = (-0x1.2b803473f7ad2p-1)%float ->
  split 1 thirds_examples =
    Ok [filter (affirmative 1) thirds_examples;
        filter (fun e => negb (affirmative 1 e)) thirds_examples] /\
  information_gain math_log2 0 thirds_examples
    [filter (affirmative 1) thirds_examples;
     filter (fun e => negb (affirmative 1 e)) thirds_examples]
  = Ok (-0x1p-53)%float.
Proof.
  intros H13 H23. split; [vm_compute; reflexivity|].
  vm_compute. rewrite H13, H23. vm_compute. reflexivity.
Qed.

Lemma log2_series_at_thirds :
  log2_series 0x1.5555555555555p-2%float = (-0x1.95c01a39fbd69p+0)%float /\
  log2_series 0x1.5555555555555p-1%float = (-0x1.2b803473f7ad2p-1)%float.
Proof. split; vm_compute; reflexivity. Qed.

Lemma gain_negative_refutes (math_log2 : float -> float) :
  math_log2 0x1.5555555555555p-2%float = (-0x1.95c01a39fbd69p+0)%float ->
  math_log2 0x1.5555555555555p-1%float = (-0x1.2b803473f7ad2p-1)%float ->
  ~ gain_nonneg math_log2.
Proof.
  intros H13 H23 Hnonneg.
  destruct (gain_at_thirds math_log2 H13 H23) as [Hsplit Hgain].
  specialize (Hnonneg 0 1 thirds_examples _ _ ltac:(discriminate) Hsplit Hgain).
  vm_compute in Hnonneg. discriminate Hnonneg.
Qed.

(** The gain of a split is not always found non-negative: on the thirty
    rows of [thirds_examples], a non-empty parent, the computed gain of
    the split on the vote is [-2^-53]. *)
Lemma gain_nonneg_counterexample : ~ gain_nonneg log2_series.
Proof.
  destruct log2_series_at_thirds as [H13 H23].
  apply gain_negative_refutes; assumption.
Qed.

(** C8, amended.  For a non-empty parent whose rows, like those of the
    partitions, have the target column, [information_gain] returns the
    entropy of the parent minus the sum over the non-empty partitions of
    (|partition| / |parent|) * entropy(partition), computed in binary64 and
    accumulated from left to right; empty partitions are skipped.  The
    computed gain of a split of a non-empty parent is not always >= 0: for
    every logarithm with the values [math.log(x, 2)] has at 1/3 and 2/3,
    rounding leaves a gain below zero on some split. *)
Theorem information_gain_formula_rounding (math_log2 : float -> float)
    (target : nat) (parent : list example) (children : list (list example)) :
  parent <> [] ->
  forallb (has_column target) parent = true ->
  forallb (forallb (has_column target)) children = true ->
  information_gain math_log2 target parent children =
    Ok (entropy_of math_log2 target parent
        - weighted_entropies math_log2 target parent (filter nonempty children))%float /\
  (math_log2 0x1.5555555555555p-2%float = (-0x1.95c01a39fbd69p+0)%float ->
   math_log2 0x1.5555555555555p-1%float = (-0x1.2b803473f7ad2p-1)%float ->
   ~ gain_nonneg math_log2).
Proof.
  intros Hne Hp Hc. split.
  - unfold information_gain. rewrite children_loop_value by assumption.
    cbn [bind]. rewrite entropy_value by assumption. reflexivity.
  - apply gain_negative_refutes.
Qed.

Lemma information_gain_formula_rounding_witness :
  thirds_examples <> [] /\
  forallb (has_column 0) thirds_examples = true /\
  information_gain log2_series 0 thirds_examples
    [filter (affirmative 1) thirds_examples;
     filter (fun e => negb (affirmative 1 e)) thirds_examples] =
    Ok (entropy_of log2_series 0 thirds_examples
        - weighted_entropies log2_series 0 thirds_examples
            [filter (affirmative 1) thirds_examples;
             filter (fun e => negb (affirmative 1 e)) thirds_examples])%float /\
  ~ gain_nonneg log2_series.
Proof.
  split; [discriminate|]. split; [reflexivity|].
  destruct (information_gain_formula_rounding log2_series 0 thirds_examples
              [filter (affirmative 1) thirds_examples;
               filter (fun e => negb (affirmative 1 e)) thirds_examples])
    as [Hvalue Hsign]; [discriminate | reflexivity | reflexivity |].
  split; [exact Hvalue|].
  destruct log2_series_at_thirds as [H13 H23]. exact (Hsign H13 H23).
Defined.
